(** * Kraken-Buyer: the allocation pass of [main.py]

    A shallow embedding of the sizing rules and of the row loop of [main],
    with the properties of the scan proved about it.

    The code is embedded twice.
    - In the first embedding a Python [float] is a rational number and
      arithmetic is exact.  It carries the properties that do not depend
      on how a double rounds or on its special values: the brackets, the
      tests of a row and their order, the parser, the outcome of an order.
    - The module [Binary64] embeds the same code with a [float] as the
      IEEE 754 double it is, with rounding, infinities and nan.  It
      carries the properties of the cap, the minimum and the funds.

    Further conventions.
    - A Python [str] is the list of its Unicode code points.
    - [print] appends a structured message to the standard output, kept in
      the state as a list in the order of printing.
    - The builtins [float()] and [str.upper], the exchange client and the
      configuration read from the process environment are not fixed by the
      program: they are the fields of the class [Env], and every theorem
      holds for every instance of it.  *)

From Stdlib Require Import QArith Qabs List NArith ZArith Bool Lia Lqa Ascii Sorted.
From Stdlib Require Import SpecFloat.
From Stdlib Require String.
Import ListNotations String.StringSyntax.
Delimit Scope string_scope with string.

Local Open Scope Q_scope.

(** ** Python strings *)

Definition pystr := list N.

(** [str.isspace] on one character: the code points CPython lists as
    white space. *)
Definition isspace (c : N) : bool :=
  ((9 <=? c) && (c <=? 13) || (28 <=? c) && (c <=? 32)
   || (c =? 133) || (c =? 160) || (c =? 5760)
   || (8192 <=? c) && (c <=? 8202)
   || (c =? 8232) || (c =? 8233) || (c =? 8239) || (c =? 8287)
   || (c =? 12288))%N.

Fixpoint lstrip (s : pystr) : pystr :=
  match s with
  | [] => []
  | c :: s' => if isspace c then lstrip s' else s
  end.

Definition rstrip (s : pystr) : pystr := rev (lstrip (rev s)).

(** [s.strip()] *)
Definition strip (s : pystr) : pystr := rstrip (lstrip s).

Fixpoint str_eqb (s t : pystr) : bool :=
  match s, t with
  | [], [] => true
  | c :: s', d :: t' => (c =? d)%N && str_eqb s' t'
  | _, _ => false
  end.

(** Truth value of a string: [not s] holds of the empty string only. *)
Definition py_not (s : pystr) : bool :=
  match s with [] => true | _ :: _ => false end.

(** A string that does not start with white space, as [lstrip] leaves it. *)
Definition starts_clean (s : pystr) : Prop :=
  match s with [] => True | c :: _ => isspace c = false end.

(** An ASCII literal as a Python string. *)
Definition lit (s : String.string) : pystr :=
  map N_of_ascii (String.list_ascii_of_string s).

Arguments lit s%_string.

(** ** Python floats *)

Definition Qleb (x y : Q) : bool := Qle_bool x y.
Definition Qltb (x y : Q) : bool := negb (Qle_bool y x).

(** [min(a, b)] keeps its first argument unless the second is smaller. *)
Definition py_min (a b : Q) : Q := if Qltb b a then b else a.

(** The outcome of [float(s)] on a string: the value, or [ValueError],
    the one exception the builtin raises on a string. *)
Inductive float_result : Type :=
| FloatValue (x : Q)
| ValueError.

(** ** Tier classification *)

(** d = abs(pct_down), then the chained comparisons of the source. *)
Definition determine_tier_fraction (pct_down : Q) : option Q :=
  let d := Qabs pct_down in
  if Qleb 0 d && Qleb d 25 then Some 0.05
  else if Qleb 26 d && Qleb d 50 then Some 0.10
  else if Qleb 51 d && Qleb d 75 then Some 0.15
  else if Qleb 76 d && Qleb d 99.9 then Some 0.20
  else None.

(** ** Icon multipliers *)

Definition GEM : pystr := [128142%N].
Definition COLLISION : pystr := [128165%N].
Definition ROCKET : pystr := [128640%N].
Definition SPARKLES : pystr := [10024%N].
Definition BAR_CHART : pystr := [128202%N].

Definition ICON_MULTIPLIERS : list (pystr * Q) :=
  [ (GEM, 1.0); (COLLISION, 0.9); (ROCKET, 0.8); (SPARKLES, 0.7);
    (BAR_CHART, 0.6) ].

(** [d[k]] on a dict written as its list of items; [None] when [k not in d]. *)
Fixpoint dict_get (d : list (pystr * Q)) (k : pystr) : option Q :=
  match d with
  | [] => None
  | (k', v) :: d' => if str_eqb k k' then Some v else dict_get d' k
  end.

Definition dict_in (k : pystr) (d : list (pystr * Q)) : bool :=
  match dict_get d k with Some _ => true | None => false end.

(** ** Column layout *)

Definition COL_SYMBOL : nat := 0.
Definition COL_PRICE : nat := 1.
Definition COL_PCT_DOWN : nat := 2.
Definition COL_LONG_MA : nat := 8.
Definition COL_ICON : nat := 14.
Definition COL_SENTIMENT : nat := 15.

(** max(COL_SENTIMENT, COL_ICON, COL_LONG_MA, COL_PCT_DOWN, COL_PRICE, COL_SYMBOL) *)
Definition max_col : nat :=
  fold_left Nat.max
    [COL_ICON; COL_LONG_MA; COL_PCT_DOWN; COL_PRICE; COL_SYMBOL] COL_SENTIMENT.

(** [row[i]]; the default is never reached after the length test. *)
Definition cell (row : list pystr) (i : nat) : pystr := nth i row [].

(** The test of the conditional expression that reads the sentiment cell. *)
Definition has_sentiment_column (row : list pystr) : bool :=
  (COL_SENTIMENT <? length row)%nat.

(** ** Orders, messages and the state of a run *)

(** One entry of [orders_placed]. *)
Record placed_order : Type := {
  po_row : nat;
  po_symbol : pystr;
  po_market_symbol : pystr;
  po_notional : Q;
  po_amount : Q;
  po_order_id : option pystr
}.

(** What [exchange.create_market_buy_order] does: it returns the order, of
    which the program reads [order.get("id")], or raises [ccxt.BaseError]. *)
Inductive order_result : Type :=
| OrderReturned (order_id : option pystr)
| BaseError (e : pystr).

(** The lines the program prints, with the values they interpolate. *)
Inductive message : Type :=
| MsgStarting
| MsgNoDataRows
| MsgHeader (header : list pystr)
| MsgLoaded (n : nat)
| MsgAvailableFunds (remaining_funds : Q)
| MsgNoAvailableFunds
| MsgNotEnoughColumns (idx : nat)
| MsgMissingRequired (idx : nat) (symbol : pystr)
| MsgIconNotAllowed (idx : nat) (symbol icon : pystr)
| MsgInvalidNumeric (idx : nat) (symbol : pystr)
| MsgNonPositivePrice (idx : nat) (symbol : pystr)
| MsgNoBracket (idx : nat) (symbol : pystr) (pct_down : Q)
| MsgSentimentMissing (idx : nat) (symbol : pystr)
| MsgNoRemainingFunds
| MsgBelowMinimum (idx : nat) (symbol : pystr) (order_notional : Q)
| MsgOrder (idx : nat) (symbol : pystr)
    (price pct_down tier_fraction : Q) (icon : pystr)
    (icon_mult ma_ratio sent_mult order_notional amount_base : Q)
    (market_symbol : pystr)
| MsgOrderPlaced (idx : nat) (symbol : pystr) (order_id : option pystr)
    (order_notional remaining_funds : Q)
| MsgOrderFailed (idx : nat) (symbol : pystr) (e : pystr)
| MsgRunComplete
| MsgTotalOrders (n : nat)
| MsgOrderLine (o : placed_order).

(** The values the loop body has bound once a row has passed the tests
    of its columns, up to the tier test. *)
Record fields : Type := {
  symbol : pystr;
  price : Q;
  pct_down : Q;
  long_ma : Q;
  icon : pystr;
  icon_mult : Q;
  tier_fraction : Q
}.

(** A row that also passed the sentiment gate. *)
Record candidate : Type := {
  row_fields :> fields;
  ma_ratio : Q;
  sent_mult : Q
}.

Inductive flow : Type := Continue | Break.

(** ** The balance the exchange reports

    [exchange.fetch_balance()] returns nested dicts; the program reads them
    with [dict.get].  A dict is the list of its items, read by its first
    item for a key. *)
#[warnings="-register-all"]
Inductive py_value : Type :=
| PyNone
| PyFloat (x : Q)
| PyStr (s : pystr)
| PyDict (items : list (pystr * py_value)).

(** The exceptions that the reading of the balance can leave uncaught. *)
Inductive exception : Type :=
| AttributeError
| TypeError
| ValueErrorRaised.

(** The line [fatal] writes to the standard error. *)
Inductive fatal_message : Type :=
| NoFreeBalance (currency : pystr).

(** How a piece of the program ends: with a value, with an exception, or
    with [sys.exit]. *)
Inductive outcome (A : Type) : Type :=
| Returns (a : A)
| Raises (e : exception)
| Exits (code : Z) (stderr : fatal_message).

Arguments Returns {A} a.
Arguments Raises {A} e.
Arguments Exits {A} code stderr.

Definition bind {A B : Type} (c : outcome A) (k : A -> outcome B)
  : outcome B :=
  match c with
  | Returns a => k a
  | Raises e => Raises e
  | Exits code stderr => Exits code stderr
  end.

(** print(f"[FATAL] {msg}", file=sys.stderr); sys.exit(1) *)
Definition fatal {A : Type} (msg : fatal_message) : outcome A := Exits 1 msg.

Fixpoint items_get (items : list (pystr * py_value)) (key : pystr)
  : option py_value :=
  match items with
  | [] => None
  | (k, v) :: items' => if str_eqb key k then Some v else items_get items' key
  end.

(** [d.get(key, default)]: only a dict has the method. *)
Definition py_get (d : py_value) (key : pystr) (default : py_value)
  : outcome py_value :=
  match d with
  | PyDict items =>
      Returns (match items_get items key with
               | Some v => v
               | None => default
               end)
  | _ => Raises AttributeError
  end.

Definition FREE : pystr := lit "free".

(** [d.get(key)] is [None] for the dict of these items: the key is
    missing, or it holds [None]. *)
Definition gives_none (items : list (pystr * py_value)) (key : pystr) : Prop :=
  items_get items key = None \/ items_get items key = Some PyNone.

(** [d.get(key, {}).get(key')] is [None] without an exception: the outer
    key is missing, or it holds a dict that gives [None] for the inner. *)
Definition nested_none (items : list (pystr * py_value)) (key key' : pystr)
  : Prop :=
  items_get items key = None \/
  exists inner, items_get items key = Some (PyDict inner) /\ gives_none inner key'.

(** What the program takes from its environment: the configuration read
    from the process environment, the builtins [float()] and [str.upper],
    and the exchange client with its state and the one call the loop
    makes on it. *)
Class Env : Type := {
  BASE_CURRENCY : pystr;
  MIN_ORDER_NOTIONAL : Q;
  float : pystr -> float_result;
  upper : pystr -> pystr;
  exchange : Type;
  create_market_buy_order : exchange -> pystr -> Q -> exchange * order_result
}.

Section Engine.

Context {env : Env}.

Definition parse_float (value : option pystr) : option Q :=
  match value with
  | None => None
  | Some value =>
      let value := strip value in
      if str_eqb value [] then None
      else match float value with
           | FloatValue x => Some x
           | ValueError => None
           end
  end.

Definition sentiment_multiplier (sent_str : option pystr) : option Q :=
  match sent_str with
  | None => None
  | Some sent_str =>
      let sent_str := strip sent_str in
      if str_eqb sent_str [] then None
      else match parse_float (Some sent_str) with
           | Some val => if Qltb 0 val then Some val else None
           | None => None
           end
  end.

Record state : Type := {
  remaining_funds : Q;
  orders_placed : list placed_order;
  stdout : list message;
  client : exchange
}.

Definition py_print (m : message) (st : state) : state :=
  {| remaining_funds := remaining_funds st;
     orders_placed := orders_placed st;
     stdout := stdout st ++ [m];
     client := client st |}.

(** The loop body from the length test to the tier test.  Each test
    that fails ends the iteration with a printed line ([continue]),
    returned on the left.  The membership test
    [icon not in ICON_MULTIPLIERS] and the later lookup
    [ICON_MULTIPLIERS[icon]] are one [dict_get]. *)
Definition required_fields (idx : nat) (row : list pystr)
  : message + fields :=
  if (length row <=? max_col)%nat then inl (MsgNotEnoughColumns idx) else
  let symbol := upper (strip (cell row COL_SYMBOL)) in
  let price_str := cell row COL_PRICE in
  let pct_down_str := cell row COL_PCT_DOWN in
  let long_ma_str := cell row COL_LONG_MA in
  let icon := strip (cell row COL_ICON) in
  if py_not symbol || py_not price_str || py_not pct_down_str
     || py_not long_ma_str || py_not icon
  then inl (MsgMissingRequired idx symbol) else
  match dict_get ICON_MULTIPLIERS icon with
  | None => inl (MsgIconNotAllowed idx symbol icon)
  | Some icon_mult =>
      match parse_float (Some price_str), parse_float (Some pct_down_str),
            parse_float (Some long_ma_str) with
      | Some price, Some pct_down, Some long_ma =>
          if Qleb price 0 then inl (MsgNonPositivePrice idx symbol) else
          match determine_tier_fraction pct_down with
          | None => inl (MsgNoBracket idx symbol pct_down)
          | Some tier_fraction =>
              inr {| symbol := symbol; price := price;
                     pct_down := pct_down; long_ma := long_ma;
                     icon := icon; icon_mult := icon_mult;
                     tier_fraction := tier_fraction |}
          end
      | _, _, _ => inl (MsgInvalidNumeric idx symbol)
      end
  end.

(** sentiment_str = row[COL_SENTIMENT] if len(row) > COL_SENTIMENT else "" *)
Definition sentiment_str (row : list pystr) : pystr :=
  if has_sentiment_column row then cell row COL_SENTIMENT else [].

(** The loop body up to the sentiment gate: the MA ratio, then the
    sentiment multiplier or the end of the iteration. *)
Definition validate (idx : nat) (row : list pystr) : message + candidate :=
  match required_fields idx row with
  | inl m => inl m
  | inr f =>
      let ma_ratio := long_ma f / price f in
      match sentiment_multiplier (Some (sentiment_str row)) with
      | None => inl (MsgSentimentMissing idx (symbol f))
      | Some sent_mult =>
          inr {| row_fields := f; ma_ratio := ma_ratio;
                 sent_mult := sent_mult |}
      end
  end.

(** Base notional, multipliers, cap to the remaining funds. *)
Definition order_notional (funds : Q) (c : candidate) : Q :=
  let base_notional := funds * tier_fraction c in
  let order_notional :=
    base_notional * icon_mult c * ma_ratio c * sent_mult c in
  py_min order_notional funds.

(** f"{symbol}/{BASE_CURRENCY}" *)
Definition market_symbol (c : candidate) : pystr :=
  symbol c ++ lit "/" ++ BASE_CURRENCY.

(** The line printed before the order is sent. *)
Definition order_line (idx : nat) (c : candidate) (order_notional : Q)
  : message :=
  MsgOrder idx (symbol c) (price c) (pct_down c) (tier_fraction c) (icon c)
    (icon_mult c) (ma_ratio c) (sent_mult c) order_notional
    (order_notional / price c) (market_symbol c).

(** The end of the loop body, from the amount to the [try] statement:
    the order line is printed, the order is sent, and the funds are
    reduced when the call returns; when it raises [ccxt.BaseError] only
    the failure is printed. *)
Definition place_order (idx : nat) (c : candidate) (order_notional : Q)
    (st : state) : state :=
  let amount_base := order_notional / price c in
  let market_symbol := market_symbol c in
  let st := py_print (order_line idx c order_notional) st in
  match create_market_buy_order (client st) market_symbol amount_base with
  | (ex, OrderReturned order_id) =>
      let remaining := remaining_funds st - order_notional in
      {| remaining_funds := remaining;
         orders_placed :=
           orders_placed st ++
             [ {| po_row := idx; po_symbol := symbol c;
                  po_market_symbol := market_symbol;
                  po_notional := order_notional;
                  po_amount := amount_base;
                  po_order_id := order_id |} ];
         stdout :=
           stdout st ++
             [ MsgOrderPlaced idx (symbol c) order_id order_notional
                 remaining ];
         client := ex |}
  | (ex, BaseError e) =>
      {| remaining_funds := remaining_funds st;
         orders_placed := orders_placed st;
         stdout := stdout st ++ [ MsgOrderFailed idx (symbol c) e ];
         client := ex |}
  end.

(** One iteration of the [for] loop. *)
Definition loop_body (idx : nat) (row : list pystr) (st : state)
  : flow * state :=
  match validate idx row with
  | inl m => (Continue, py_print m st)
  | inr c =>
      if Qleb (remaining_funds st) 0 then
        (Break, py_print MsgNoRemainingFunds st)
      else
        let order_notional := order_notional (remaining_funds st) c in
        if Qltb order_notional MIN_ORDER_NOTIONAL then
          (Continue,
           py_print (MsgBelowMinimum idx (symbol c) order_notional) st)
        else (Continue, place_order idx c order_notional st)
  end.

(** The four ways an iteration can end. *)
Inductive iteration (idx : nat) (row : list pystr) (st : state)
  : flow * state -> Prop :=
| it_rejected m :
    validate idx row = inl m ->
    iteration idx row st (Continue, py_print m st)
| it_no_funds c :
    validate idx row = inr c -> remaining_funds st <= 0 ->
    iteration idx row st (Break, py_print MsgNoRemainingFunds st)
| it_below_minimum c :
    validate idx row = inr c -> 0 < remaining_funds st ->
    order_notional (remaining_funds st) c < MIN_ORDER_NOTIONAL ->
    iteration idx row st
      (Continue,
       py_print (MsgBelowMinimum idx (symbol c)
                   (order_notional (remaining_funds st) c)) st)
| it_submitted c :
    validate idx row = inr c -> 0 < remaining_funds st ->
    MIN_ORDER_NOTIONAL <= order_notional (remaining_funds st) c ->
    iteration idx row st
      (Continue, place_order idx c (order_notional (remaining_funds st) c) st).

(** for idx, row in enumerate(data_rows, start=idx) *)
Fixpoint for_rows (idx : nat) (data_rows : list (list pystr)) (st : state)
  : state :=
  match data_rows with
  | [] => st
  | row :: rest =>
      match loop_body idx row st with
      | (Break, st') => st'
      | (Continue, st') => for_rows (S idx) rest st'
      end
  end.

(** [main] from the sheet's values and the free balance on: the two
    early returns, the loop, the summary. *)
Definition main (all_values : list (list pystr)) (free_funds : Q)
    (ex : exchange) : state :=
  let st :=
    {| remaining_funds := free_funds; orders_placed := [];
       stdout := [MsgStarting]; client := ex |} in
  if (length all_values <? 2)%nat then py_print MsgNoDataRows st
  else
    let header := hd [] all_values in
    let data_rows := tl all_values in
    let st := py_print (MsgHeader header) st in
    let st := py_print (MsgLoaded (length data_rows)) st in
    let st := py_print (MsgAvailableFunds (remaining_funds st)) st in
    if Qleb (remaining_funds st) 0 then py_print MsgNoAvailableFunds st
    else
      let st := for_rows 2 data_rows st in
      let st := py_print MsgRunComplete st in
      let st := py_print (MsgTotalOrders (length (orders_placed st))) st in
      fold_left (fun st o => py_print (MsgOrderLine o) st)
        (orders_placed st) st.

(** [float(v)] on a value of the balance: a number is itself, a string
    goes through [float()], anything else is a [TypeError]. *)
Definition py_float (v : py_value) : outcome Q :=
  match v with
  | PyFloat x => Returns x
  | PyStr s =>
      match float s with
      | FloatValue x => Returns x
      | ValueError => Raises ValueErrorRaised
      end
  | PyNone | PyDict _ => Raises TypeError
  end.

(** The free balance, from [balance.get(BASE_CURRENCY, {}).get("free")]
    to [float(free_funds)]. *)
Definition free_balance (balance : py_value) : outcome Q :=
  bind (py_get balance BASE_CURRENCY (PyDict [])) (fun entry =>
  bind (py_get entry FREE PyNone) (fun free_funds =>
  bind (match free_funds with
        | PyNone =>
            bind (py_get balance FREE (PyDict [])) (fun free_dict =>
            py_get free_dict BASE_CURRENCY PyNone)
        | _ => Returns free_funds
        end) (fun free_funds =>
  match free_funds with
  | PyNone => fatal (NoFreeBalance BASE_CURRENCY)
  | _ => py_float free_funds
  end))).

End Engine.

(** ** A concrete environment, to run the model

    [float_decimal] reads the plain decimal literals of [float()]'s grammar
    (sign, digits, point, digits); [upper_ascii] maps the ASCII letters; the
    scripted exchange answers each call with the next outcome of a list. *)

Module Run.

Definition digit (c : N) : option Z :=
  if ((48 <=? c) && (c <=? 57))%N then Some (Z.of_N (c - 48)) else None.

(** Reads a run of digits: their value, their number, what follows. *)
Fixpoint digits (s : pystr) (acc : Z) (n : nat) : Z * nat * pystr :=
  match s with
  | [] => (acc, n, [])
  | c :: s' =>
      match digit c with
      | Some d => digits s' (10 * acc + d)%Z (S n)
      | None => (acc, n, s)
      end
  end.

Definition unsigned_decimal (s : pystr) : float_result :=
  let '(ip, ni, rest) := digits s 0%Z 0%nat in
  match rest with
  | [] => if (ni =? 0)%nat then ValueError else FloatValue (inject_Z ip)
  | c :: frac =>
      if (c =? 46)%N then
        let '(fp, nf, rest') := digits frac 0%Z 0%nat in
        match rest' with
        | [] =>
            if (ni + nf =? 0)%nat then ValueError
            else FloatValue
                   (Qmake (ip * 10 ^ Z.of_nat nf + fp)
                          (Z.to_pos (10 ^ Z.of_nat nf)))
        | _ :: _ => ValueError
        end
      else ValueError
  end.

Definition float_decimal (s : pystr) : float_result :=
  match strip s with
  | [] => ValueError
  | c :: s' =>
      if (c =? 45)%N then
        match unsigned_decimal s' with
        | FloatValue x => FloatValue (- x)
        | ValueError => ValueError
        end
      else if (c =? 43)%N then unsigned_decimal s'
      else unsigned_decimal (c :: s')
  end.

Definition upper_ascii (s : pystr) : pystr :=
  map (fun c => if ((97 <=? c) && (c <=? 122))%N then (c - 32)%N else c) s.

Definition scripted : Type := list order_result.

Definition scripted_order (ex : scripted) (market_symbol : pystr) (amount : Q)
  : scripted * order_result :=
  match ex with
  | r :: ex' => (ex', r)
  | [] => ([], BaseError (lit "no response"))
  end.

Definition USD : pystr := lit "USD".

Definition env (min_notional : Q) : Env :=
  {| BASE_CURRENCY := USD;
     MIN_ORDER_NOTIONAL := min_notional;
     float := float_decimal;
     upper := upper_ascii;
     exchange := scripted;
     create_market_buy_order := scripted_order |}.

(** A sheet row: columns A, B, C, I, O and P filled, the others empty. *)
Definition sheet_row (sym price pct long_ma : String.string) (icon : pystr)
    (sentiment : String.string) : list pystr :=
  [ lit sym; lit price; lit pct; []; []; []; []; []; lit long_ma;
    []; []; []; []; []; icon; lit sentiment ].

Arguments sheet_row (sym price pct long_ma)%_string icon sentiment%_string.

Definition header : list pystr := [lit "Symbol"; lit "Price"].

Definition start (min_notional funds : Q) (ex : scripted)
  : @state (env min_notional) :=
  @Build_state (env min_notional) funds [] [] ex.

(** ETH at 2000, 10% down, long MA 2000, gem, sentiment 1.0. *)
Definition eth_row : list pystr :=
  sheet_row "eth" "2000" "-10" "2000" GEM "1.0".

Definition eth : candidate :=
  {| row_fields :=
       {| symbol := lit "ETH"; price := 2000; pct_down := -10;
          long_ma := 2000; icon := GEM; icon_mult := 1.0;
          tier_fraction := 0.05 |};
     ma_ratio := 2000 / 2000;
     sent_mult := 1.0 |}.

(** The same row without a sentiment. *)
Definition eth_row_no_sentiment : list pystr :=
  sheet_row "eth" "2000" "-10" "2000" GEM "".

Definition eth_fields : fields := row_fields eth.

(** SOL at 20, 80% down, long MA 300, gem: the tier fraction times the
    multipliers is 3, so the raw notional is three times the funds. *)
Definition sol_row : list pystr :=
  sheet_row "sol" "20" "-80" "300" GEM "1".

Definition sol : candidate :=
  {| row_fields :=
       {| symbol := lit "SOL"; price := 20; pct_down := -80;
          long_ma := 300; icon := GEM; icon_mult := 1.0;
          tier_fraction := 0.20 |};
     ma_ratio := 300 / 20;
     sent_mult := 1 |}.

(** A row cut after column O. *)
Definition cut_row : list pystr := firstn 15 eth_row.

Definition OID1 : pystr := lit "OID1".
Definition REJECTED : pystr := lit "InsufficientFunds".

(** A balance as ccxt reports it: one entry per currency and the entries
    [free], [used], [total] by currency. *)
Definition ccxt_balance (free_usd : Q) : py_value :=
  PyDict
    [ (lit "info", PyDict []);
      (USD, PyDict [ (lit "free", PyFloat free_usd); (lit "used", PyFloat 0);
                     (lit "total", PyFloat free_usd) ]);
      (lit "free", PyDict [ (USD, PyFloat 1) ]) ].

(** A balance with the generic structure only. *)
Definition generic_balance (free_usd : Q) : py_value :=
  PyDict [ (lit "free", PyDict [ (lit "EUR", PyFloat 7); (USD, PyFloat free_usd) ]) ].

(** A balance that does not hold the currency. *)
Definition other_balance : py_value :=
  PyDict [ (lit "EUR", PyDict [ (lit "free", PyFloat 7) ]);
           (lit "free", PyDict [ (lit "EUR", PyFloat 7) ]) ].

(** Two more sheet rows. *)
Definition ada_row : list pystr :=
  sheet_row "ada" "2" "-30" "1" ROCKET "0.5".

Definition ice_row : list pystr :=
  sheet_row "ice" "not a price" "-30" "1" [129482%N] "1".

End Run.

(** * The same code over binary64

    The sizing rules and the loop once more, with a Python [float] as the
    IEEE 754 double it is: the specification of binary64 of the standard
    library, with its rounding, its infinities and its nan.  A comparison
    with nan is false, as in Python.  Strings, columns, the icons and the
    outcome of an order are those of the first embedding. *)

Module Binary64.

Definition float64 : Type := spec_float.

Definition prec : Z := 53.
Definition emax : Z := 1024.

Definition mul : float64 -> float64 -> float64 := SFmul prec emax.
Definition div : float64 -> float64 -> float64 := SFdiv prec emax.
Definition sub : float64 -> float64 -> float64 := SFsub prec emax.
Definition ltb : float64 -> float64 -> bool := SFltb.
Definition leb : float64 -> float64 -> bool := SFleb.

Arguments mul : simpl never.
Arguments div : simpl never.
Arguments sub : simpl never.
Arguments ltb : simpl never.
Arguments leb : simpl never.

(** An integer literal, and a decimal literal n / 10^k: the double nearest
    to it, as the quotient of two integers that are doubles is rounded. *)
Definition of_Z (z : Z) : float64 := binary_normalize prec emax z 0 false.
Definition decimal (n : Z) (k : Z) : float64 := div (of_Z n) (of_Z (10 ^ k)).

Definition is_nan (x : float64) : bool :=
  match x with S754_nan => true | _ => false end.

(** [min(a, b)] keeps its first argument unless the second is smaller. *)
Definition py_min (a b : float64) : float64 := if ltb b a then b else a.

Inductive float_result : Type :=
| FloatValue (x : float64)
| ValueError.

Definition determine_tier_fraction (pct_down : float64) : option float64 :=
  let d := SFabs pct_down in
  if leb (of_Z 0) d && leb d (of_Z 25) then Some (decimal 5 2)
  else if leb (of_Z 26) d && leb d (of_Z 50) then Some (decimal 10 2)
  else if leb (of_Z 51) d && leb d (of_Z 75) then Some (decimal 15 2)
  else if leb (of_Z 76) d && leb d (decimal 999 1) then Some (decimal 20 2)
  else None.

Definition ICON_MULTIPLIERS : list (pystr * float64) :=
  [ (GEM, of_Z 1); (COLLISION, decimal 9 1); (ROCKET, decimal 8 1);
    (SPARKLES, decimal 7 1); (BAR_CHART, decimal 6 1) ].

Fixpoint dict_get (d : list (pystr * float64)) (k : pystr) : option float64 :=
  match d with
  | [] => None
  | (k', v) :: d' => if str_eqb k k' then Some v else dict_get d' k
  end.

Record placed_order : Type := {
  po_row : nat;
  po_symbol : pystr;
  po_market_symbol : pystr;
  po_notional : float64;
  po_amount : float64;
  po_order_id : option pystr
}.

Inductive message : Type :=
| MsgStarting
| MsgNoDataRows
| MsgHeader (header : list pystr)
| MsgLoaded (n : nat)
| MsgAvailableFunds (remaining_funds : float64)
| MsgNoAvailableFunds
| MsgNotEnoughColumns (idx : nat)
| MsgMissingRequired (idx : nat) (symbol : pystr)
| MsgIconNotAllowed (idx : nat) (symbol icon : pystr)
| MsgInvalidNumeric (idx : nat) (symbol : pystr)
| MsgNonPositivePrice (idx : nat) (symbol : pystr)
| MsgNoBracket (idx : nat) (symbol : pystr) (pct_down : float64)
| MsgSentimentMissing (idx : nat) (symbol : pystr)
| MsgNoRemainingFunds
| MsgBelowMinimum (idx : nat) (symbol : pystr) (order_notional : float64)
| MsgOrder (idx : nat) (symbol : pystr)
    (price pct_down tier_fraction : float64) (icon : pystr)
    (icon_mult ma_ratio sent_mult order_notional amount_base : float64)
    (market_symbol : pystr)
| MsgOrderPlaced (idx : nat) (symbol : pystr) (order_id : option pystr)
    (order_notional remaining_funds : float64)
| MsgOrderFailed (idx : nat) (symbol : pystr) (e : pystr)
| MsgRunComplete
| MsgTotalOrders (n : nat)
| MsgOrderLine (o : placed_order).

Record fields : Type := {
  symbol : pystr;
  price : float64;
  pct_down : float64;
  long_ma : float64;
  icon : pystr;
  icon_mult : float64;
  tier_fraction : float64
}.

Record candidate : Type := {
  row_fields :> fields;
  ma_ratio : float64;
  sent_mult : float64
}.

(** The environment of the program, with [float()] returning any double,
    nan and the infinities among them, and a minimum notional that is any
    double too. *)
Class Env : Type := {
  BASE_CURRENCY : pystr;
  MIN_ORDER_NOTIONAL : float64;
  float : pystr -> float_result;
  upper : pystr -> pystr;
  exchange : Type;
  create_market_buy_order :
    exchange -> pystr -> float64 -> exchange * order_result
}.

Section Engine.

Context {env : Env}.

Definition parse_float (value : option pystr) : option float64 :=
  match value with
  | None => None
  | Some value =>
      let value := strip value in
      if str_eqb value [] then None
      else match float value with
           | FloatValue x => Some x
           | ValueError => None
           end
  end.

Definition sentiment_multiplier (sent_str : option pystr) : option float64 :=
  match sent_str with
  | None => None
  | Some sent_str =>
      let sent_str := strip sent_str in
      if str_eqb sent_str [] then None
      else match parse_float (Some sent_str) with
           | Some val => if ltb (of_Z 0) val then Some val else None
           | None => None
           end
  end.

Record state : Type := {
  remaining_funds : float64;
  orders_placed : list placed_order;
  stdout : list message;
  client : exchange
}.

Definition py_print (m : message) (st : state) : state :=
  {| remaining_funds := remaining_funds st;
     orders_placed := orders_placed st;
     stdout := stdout st ++ [m];
     client := client st |}.

(** The loop body from the length test to the tier test; [price <= 0] is
    false of a nan, which goes on. *)
Definition required_fields (idx : nat) (row : list pystr)
  : message + fields :=
  if (length row <=? max_col)%nat then inl (MsgNotEnoughColumns idx) else
  let symbol := upper (strip (cell row COL_SYMBOL)) in
  let price_str := cell row COL_PRICE in
  let pct_down_str := cell row COL_PCT_DOWN in
  let long_ma_str := cell row COL_LONG_MA in
  let icon := strip (cell row COL_ICON) in
  if py_not symbol || py_not price_str || py_not pct_down_str
     || py_not long_ma_str || py_not icon
  then inl (MsgMissingRequired idx symbol) else
  match dict_get ICON_MULTIPLIERS icon with
  | None => inl (MsgIconNotAllowed idx symbol icon)
  | Some icon_mult =>
      match parse_float (Some price_str), parse_float (Some pct_down_str),
            parse_float (Some long_ma_str) with
      | Some price, Some pct_down, Some long_ma =>
          if leb price (of_Z 0) then inl (MsgNonPositivePrice idx symbol) else
          match determine_tier_fraction pct_down with
          | None => inl (MsgNoBracket idx symbol pct_down)
          | Some tier_fraction =>
              inr {| symbol := symbol; price := price;
                     pct_down := pct_down; long_ma := long_ma;
                     icon := icon; icon_mult := icon_mult;
                     tier_fraction := tier_fraction |}
          end
      | _, _, _ => inl (MsgInvalidNumeric idx symbol)
      end
  end.

Definition sentiment_str (row : list pystr) : pystr :=
  if has_sentiment_column row then cell row COL_SENTIMENT else [].

(** [long_ma / price] divides by a price that is not zero: a zero price
    is [<= 0] and the row was skipped. *)
Definition validate (idx : nat) (row : list pystr) : message + candidate :=
  match required_fields idx row with
  | inl m => inl m
  | inr f =>
      let ma_ratio := div (long_ma f) (price f) in
      match sentiment_multiplier (Some (sentiment_str row)) with
      | None => inl (MsgSentimentMissing idx (symbol f))
      | Some sent_mult =>
          inr {| row_fields := f; ma_ratio := ma_ratio;
                 sent_mult := sent_mult |}
      end
  end.

(** base_notional * icon_mult * ma_ratio * sent_mult, each product
    rounded, before the cap. *)
Definition raw_notional (funds : float64) (c : candidate) : float64 :=
  let base_notional := mul funds (tier_fraction c) in
  mul (mul (mul base_notional (icon_mult c)) (ma_ratio c)) (sent_mult c).

Definition order_notional (funds : float64) (c : candidate) : float64 :=
  py_min (raw_notional funds c) funds.

Definition market_symbol (c : candidate) : pystr :=
  symbol c ++ lit "/" ++ BASE_CURRENCY.

Definition order_line (idx : nat) (c : candidate) (order_notional : float64)
  : message :=
  MsgOrder idx (symbol c) (price c) (pct_down c) (tier_fraction c) (icon c)
    (icon_mult c) (ma_ratio c) (sent_mult c) order_notional
    (div order_notional (price c)) (market_symbol c).

Definition place_order (idx : nat) (c : candidate) (order_notional : float64)
    (st : state) : state :=
  let amount_base := div order_notional (price c) in
  let market_symbol := market_symbol c in
  let st := py_print (order_line idx c order_notional) st in
  match create_market_buy_order (client st) market_symbol amount_base with
  | (ex, OrderReturned order_id) =>
      let remaining := sub (remaining_funds st) order_notional in
      {| remaining_funds := remaining;
         orders_placed :=
           orders_placed st ++
             [ {| po_row := idx; po_symbol := symbol c;
                  po_market_symbol := market_symbol;
                  po_notional := order_notional;
                  po_amount := amount_base;
                  po_order_id := order_id |} ];
         stdout :=
           stdout st ++
             [ MsgOrderPlaced idx (symbol c) order_id order_notional
                 remaining ];
         client := ex |}
  | (ex, BaseError e) =>
      {| remaining_funds := remaining_funds st;
         orders_placed := orders_placed st;
         stdout := stdout st ++ [ MsgOrderFailed idx (symbol c) e ];
         client := ex |}
  end.

Definition loop_body (idx : nat) (row : list pystr) (st : state)
  : flow * state :=
  match validate idx row with
  | inl m => (Continue, py_print m st)
  | inr c =>
      if leb (remaining_funds st) (of_Z 0) then
        (Break, py_print MsgNoRemainingFunds st)
      else
        let order_notional := order_notional (remaining_funds st) c in
        if ltb order_notional MIN_ORDER_NOTIONAL then
          (Continue,
           py_print (MsgBelowMinimum idx (symbol c) order_notional) st)
        else (Continue, place_order idx c order_notional st)
  end.

Fixpoint for_rows (idx : nat) (data_rows : list (list pystr)) (st : state)
  : state :=
  match data_rows with
  | [] => st
  | row :: rest =>
      match loop_body idx row st with
      | (Break, st') => st'
      | (Continue, st') => for_rows (S idx) rest st'
      end
  end.

Definition main (all_values : list (list pystr)) (free_funds : float64)
    (ex : exchange) : state :=
  let st :=
    {| remaining_funds := free_funds; orders_placed := [];
       stdout := [MsgStarting]; client := ex |} in
  if (length all_values <? 2)%nat then py_print MsgNoDataRows st
  else
    let header := hd [] all_values in
    let data_rows := tl all_values in
    let st := py_print (MsgHeader header) st in
    let st := py_print (MsgLoaded (length data_rows)) st in
    let st := py_print (MsgAvailableFunds (remaining_funds st)) st in
    if leb (remaining_funds st) (of_Z 0) then py_print MsgNoAvailableFunds st
    else
      let st := for_rows 2 data_rows st in
      let st := py_print MsgRunComplete st in
      let st := py_print (MsgTotalOrders (length (orders_placed st))) st in
      fold_left (fun st o => py_print (MsgOrderLine o) st)
        (orders_placed st) st.

End Engine.

(** The funds after the notionals of these orders have been subtracted
    from them one after another. *)
Definition less_notionals (funds : float64) (l : list placed_order)
  : float64 :=
  fold_left (fun f o => sub f (po_notional o)) l funds.

(** ** A concrete environment

    [float_text] reads what the examples need of [float()]: nan and the
    infinities, and the decimal literals of up to fifteen digits, which it
    rounds as [float()] does. *)

Definition lower_ascii (s : pystr) : pystr :=
  map (fun c => if ((65 <=? c) && (c <=? 90))%N then (c + 32)%N else c) s.

Definition unsigned_text (s : pystr) : float_result :=
  let t := lower_ascii s in
  if str_eqb t (lit "nan") then FloatValue S754_nan
  else if str_eqb t (lit "inf") || str_eqb t (lit "infinity")
       then FloatValue (S754_infinity false)
  else
    let '(ip, ni, rest) := Run.digits s 0%Z 0%nat in
    match rest with
    | [] => if (ni =? 0)%nat then ValueError else FloatValue (of_Z ip)
    | c :: frac =>
        if (c =? 46)%N then
          let '(fp, nf, rest') := Run.digits frac 0%Z 0%nat in
          match rest' with
          | [] =>
              if (ni + nf =? 0)%nat then ValueError
              else FloatValue
                     (decimal (ip * 10 ^ Z.of_nat nf + fp) (Z.of_nat nf))
          | _ :: _ => ValueError
          end
        else ValueError
    end.

Definition float_text (s : pystr) : float_result :=
  match strip s with
  | [] => ValueError
  | c :: s' =>
      if (c =? 45)%N then
        match unsigned_text s' with
        | FloatValue x => FloatValue (SFopp x)
        | ValueError => ValueError
        end
      else if (c =? 43)%N then unsigned_text s'
      else unsigned_text (c :: s')
  end.

Definition scripted_order (ex : Run.scripted) (market_symbol : pystr)
    (amount : float64) : Run.scripted * order_result :=
  match ex with
  | r :: ex' => (ex', r)
  | [] => ([], BaseError (lit "no response"))
  end.

Definition run_env (min_notional : float64) : Env :=
  {| BASE_CURRENCY := Run.USD;
     MIN_ORDER_NOTIONAL := min_notional;
     float := float_text;
     upper := Run.upper_ascii;
     exchange := Run.scripted;
     create_market_buy_order := scripted_order |}.

Definition start (min_notional funds : float64) (ex : Run.scripted)
  : @state (run_env min_notional) :=
  @Build_state (run_env min_notional) funds [] [] ex.

(** The ETH row with the text nan in its price cell. *)
Definition nan_row : list pystr :=
  Run.sheet_row "eth" "nan" "-10" "2000" GEM "1".

Definition nan_candidate : candidate :=
  {| row_fields :=
       {| symbol := lit "ETH"; price := S754_nan; pct_down := SFopp (of_Z 10);
          long_ma := of_Z 2000; icon := GEM; icon_mult := of_Z 1;
          tier_fraction := decimal 5 2 |};
     ma_ratio := S754_nan;
     sent_mult := of_Z 1 |}.


(** The ETH row of the first embedding, as the tests leave it here. *)
Definition eth_candidate : candidate :=
  {| row_fields :=
       {| symbol := lit "ETH"; price := of_Z 2000; pct_down := SFopp (of_Z 10);
          long_ma := of_Z 2000; icon := GEM; icon_mult := of_Z 1;
          tier_fraction := decimal 5 2 |};
     ma_ratio := of_Z 1;
     sent_mult := of_Z 1 |}.

(** A row sized three times the funds. *)
Definition sol_candidate : candidate :=
  {| row_fields :=
       {| symbol := lit "SOL"; price := of_Z 20; pct_down := SFopp (of_Z 80);
          long_ma := of_Z 300; icon := GEM; icon_mult := of_Z 1;
          tier_fraction := decimal 20 2 |};
     ma_ratio := of_Z 15;
     sent_mult := of_Z 1 |}.

End Binary64.

(** * Properties *)

(** ** Comparisons and [min] *)

Lemma Qleb_true (x y : Q) : Qleb x y = true <-> x <= y.
Proof. unfold Qleb. apply Qle_bool_iff. Qed.

Lemma Qleb_false (x y : Q) : Qleb x y = false <-> y < x.
Proof.
  rewrite <- not_true_iff_false, Qleb_true. split.
  - apply Qnot_le_lt.
  - apply Qlt_not_le.
Qed.

Lemma Qltb_true (x y : Q) : Qltb x y = true <-> x < y.
Proof. unfold Qltb. rewrite negb_true_iff. apply Qleb_false. Qed.

Lemma Qltb_false (x y : Q) : Qltb x y = false <-> y <= x.
Proof. unfold Qltb. rewrite negb_false_iff. apply Qleb_true. Qed.

Lemma py_min_le_r (a b : Q) : py_min a b <= b.
Proof.
  unfold py_min. destruct (Qltb b a) eqn:E.
  - apply Qle_refl.
  - apply Qltb_false in E. exact E.
Qed.

Lemma py_min_cases (a b : Q) :
  (b < a /\ py_min a b = b) \/ (a <= b /\ py_min a b = a).
Proof.
  unfold py_min. destruct (Qltb b a) eqn:E.
  - left. split; [apply Qltb_true, E | reflexivity].
  - right. split; [apply Qltb_false, E | reflexivity].
Qed.

(** ** Strings *)

Lemma str_eqb_nil (s : pystr) : str_eqb s [] = true <-> s = [].
Proof. destruct s; simpl; split; congruence. Qed.

Lemma lstrip_spaces (s : pystr) : forallb isspace s = true -> lstrip s = [].
Proof.
  induction s as [|c s IH]; simpl; [reflexivity|].
  intros H. apply andb_true_iff in H. destruct H as [Hc Hs].
  rewrite Hc. apply IH, Hs.
Qed.

Lemma strip_spaces (s : pystr) : forallb isspace s = true -> strip s = [].
Proof. intros H. unfold strip, rstrip. rewrite (lstrip_spaces s H). reflexivity. Qed.

Lemma lstrip_clean (s : pystr) : starts_clean (lstrip s).
Proof.
  induction s as [|c s IH]; simpl; [exact I|].
  destruct (isspace c) eqn:E; [exact IH | exact E].
Qed.

Lemma lstrip_of_clean (s : pystr) : starts_clean s -> lstrip s = s.
Proof. destruct s as [|c s]; simpl; [reflexivity|]. intros ->. reflexivity. Qed.

Lemma lstrip_suffix (s : pystr) : exists u, s = u ++ lstrip s.
Proof.
  induction s as [|c s [u IH]]; simpl.
  - exists []. reflexivity.
  - destruct (isspace c).
    + exists (c :: u). simpl. f_equal. exact IH.
    + exists []. reflexivity.
Qed.

Lemma rstrip_prefix (s : pystr) : exists u, s = rstrip s ++ u.
Proof.
  unfold rstrip. destruct (lstrip_suffix (rev s)) as [u Hu].
  exists (rev u). rewrite <- rev_app_distr, <- Hu. symmetry. apply rev_involutive.
Qed.

Lemma rstrip_clean (s : pystr) : starts_clean s -> starts_clean (rstrip s).
Proof.
  intros H. destruct (rstrip_prefix s) as [u Hu].
  destruct (rstrip s) as [|c r]; [exact I|].
  rewrite Hu in H. exact H.
Qed.

Lemma rstrip_idempotent (s : pystr) : rstrip (rstrip s) = rstrip s.
Proof.
  unfold rstrip. rewrite rev_involutive.
  rewrite (lstrip_of_clean _ (lstrip_clean (rev s))). reflexivity.
Qed.

Lemma strip_idempotent (s : pystr) : strip (strip s) = strip s.
Proof.
  unfold strip.
  rewrite (lstrip_of_clean _ (rstrip_clean _ (lstrip_clean s))).
  apply rstrip_idempotent.
Qed.

(** ** C1: the tier brackets *)

Lemma tier_test (lo hi d : Q) :
  Qleb lo d && Qleb d hi = true <-> lo <= d <= hi.
Proof. rewrite andb_true_iff, !Qleb_true. reflexivity. Qed.

Lemma tier_test_false (lo hi d : Q) :
  d < lo \/ hi < d -> Qleb lo d && Qleb d hi = false.
Proof.
  intros H. apply not_true_iff_false. rewrite tier_test. intros [H1 H2].
  destruct H as [H|H]; [apply (Qlt_not_le _ _ H), H1 | apply (Qlt_not_le _ _ H), H2].
Qed.

(** C1, as the claim has it, fails: a drawdown just above 25 falls in the
    gap between the first bracket, closed at 25, and the second, which the
    code opens at 26, so it has no tier instead of the tier 0.10. *)
Lemma determine_tier_fraction_gap_above_25 :
  determine_tier_fraction 25.0000001 = None /\
  ~ (exists t, determine_tier_fraction 25.0000001 = Some t /\ t == 0.10).
Proof.
  split; [reflexivity|]. intros [t [H _]]. vm_compute in H. discriminate H.
Qed.

(** C1, amended: the tier is a step function of |pct_down| over the four
    closed brackets [0,25], [26,50], [51,75], [76,99.9] with the fractions
    0.05, 0.10, 0.15, 0.20; the boundaries 25, 50, 75 and 99.9 belong to
    the bracket they close; no tier is defined in the gaps (25,26),
    (50,51), (75,76) nor above 99.9. *)
Theorem determine_tier_fraction_brackets (pct_down : Q) :
  let d := Qabs pct_down in
  (d <= 25 -> determine_tier_fraction pct_down = Some 0.05) /\
  (26 <= d <= 50 -> determine_tier_fraction pct_down = Some 0.10) /\
  (51 <= d <= 75 -> determine_tier_fraction pct_down = Some 0.15) /\
  (76 <= d <= 99.9 -> determine_tier_fraction pct_down = Some 0.20) /\
  (25 < d < 26 \/ 50 < d < 51 \/ 75 < d < 76 \/ 99.9 < d ->
   determine_tier_fraction pct_down = None).
Proof.
  intros d. unfold determine_tier_fraction. fold d.
  assert (H0 : 0 <= d) by apply Qabs_nonneg.
  repeat split.
  - intros H. rewrite (proj2 (tier_test 0 25 d)); [reflexivity | split; assumption].
  - intros H. rewrite (tier_test_false 0 25 d) by (right; lra).
    rewrite (proj2 (tier_test 26 50 d) H). reflexivity.
  - intros H. rewrite (tier_test_false 0 25 d) by (right; lra).
    rewrite (tier_test_false 26 50 d) by (right; lra).
    rewrite (proj2 (tier_test 51 75 d) H). reflexivity.
  - intros H. rewrite (tier_test_false 0 25 d) by (right; lra).
    rewrite (tier_test_false 26 50 d) by (right; lra).
    rewrite (tier_test_false 51 75 d) by (right; lra).
    rewrite (proj2 (tier_test 76 99.9 d) H). reflexivity.
  - intros H.
    rewrite (tier_test_false 0 25 d) by (right; lra).
    rewrite (tier_test_false 26 50 d) by lra.
    rewrite (tier_test_false 51 75 d) by lra.
    rewrite (tier_test_false 76 99.9 d) by lra.
    reflexivity.
Qed.

Lemma determine_tier_fraction_brackets_witness :
  determine_tier_fraction 25 = Some 0.05 /\
  determine_tier_fraction (-37.5) = Some 0.10 /\
  determine_tier_fraction 100 = None.
Proof.
  split; [|split].
  - apply (proj1 (determine_tier_fraction_brackets 25)). vm_compute. discriminate.
  - apply (proj1 (proj2 (determine_tier_fraction_brackets (-37.5)))).
    split; vm_compute; discriminate.
  - apply (proj2 (proj2 (proj2 (proj2 (determine_tier_fraction_brackets 100))))).
    right. right. right. vm_compute. reflexivity.
Defined.

Section EngineProperties.

Context {env : Env}.

(** ** C9: the numeric field parser *)

Lemma parse_float_cases (s : pystr) :
  (strip s = [] /\ parse_float (Some s) = None) \/
  (strip s <> [] /\ float (strip s) = ValueError /\
   parse_float (Some s) = None) \/
  (exists x, strip s <> [] /\ float (strip s) = FloatValue x /\
             parse_float (Some s) = Some x).
Proof.
  unfold parse_float.
  destruct (str_eqb (strip s) []) eqn:E.
  - left. split; [apply str_eqb_nil, E | reflexivity].
  - assert (Hne : strip s <> []).
    { intros H. apply str_eqb_nil in H. congruence. }
    destruct (float (strip s)) as [x|] eqn:F.
    + right. right. exists x. auto.
    + right. left. auto.
Qed.

(** C9: [parse_float] returns on every input, [None] or the number that
    [float()] read, and never lets the [ValueError] of [float()] escape;
    the missing value, the empty string, a string of white space only and
    a text that [float()] refuses all give [None]. *)
Theorem parse_float_total_absent :
  (forall value : option pystr,
     parse_float value = None \/ exists x, parse_float value = Some x) /\
  parse_float None = None /\
  parse_float (Some []) = None /\
  (forall s, forallb isspace s = true -> parse_float (Some s) = None) /\
  (forall s, float (strip s) = ValueError -> parse_float (Some s) = None) /\
  (forall s x, parse_float (Some s) = Some x ->
               strip s <> [] /\ float (strip s) = FloatValue x).
Proof.
  repeat split.
  - intros [s|]; [|left; reflexivity].
    destruct (parse_float_cases s) as [[_ H]|[[_ [_ H]]|[x [_ [_ H]]]]];
      [left; exact H | left; exact H | right; exists x; exact H].
  - intros s H. apply strip_spaces in H.
    destruct (parse_float_cases s) as [[_ H']|[[Hn _]|[x [Hn _]]]];
      [exact H' | contradiction | contradiction].
  - intros s H.
    destruct (parse_float_cases s) as [[_ H']|[[_ [_ H']]|[x [_ [F _]]]]];
      [exact H' | exact H' | congruence].
  - destruct (parse_float_cases s) as [[_ H']|[[_ [_ H']]|[y [Hn _]]]];
      [congruence | congruence | exact Hn].
  - destruct (parse_float_cases s) as [[_ H']|[[_ [_ H']]|[y [_ [F H']]]]];
      [congruence | congruence | congruence].
Qed.

(** ** C7: the sentiment gate *)

(** The multiplier is the parsed sentiment when it is positive. *)
Lemma sentiment_multiplier_parse (s : pystr) :
  sentiment_multiplier (Some s) =
  match parse_float (Some s) with
  | Some val => if Qltb 0 val then Some val else None
  | None => None
  end.
Proof.
  unfold sentiment_multiplier, parse_float.
  rewrite strip_idempotent.
  destruct (str_eqb (strip s) []); reflexivity.
Qed.

Lemma sentiment_multiplier_none (s : pystr) :
  sentiment_multiplier (Some s) = None <->
  (strip s = [] \/ float (strip s) = ValueError \/
   exists val, float (strip s) = FloatValue val /\ val <= 0).
Proof.
  rewrite sentiment_multiplier_parse.
  destruct (parse_float_cases s) as [[He H]|[[Hn [F H]]|[x [Hn [F H]]]]];
    rewrite H.
  - split; auto.
  - split; auto.
  - destruct (Qltb 0 x) eqn:E.
    + split; [discriminate|]. intros [K|[K|[v [K Hv]]]]; try congruence.
      apply Qltb_true in E. rewrite F in K. injection K as <-.
      exfalso. apply (Qlt_not_le _ _ E), Hv.
    + split; [|reflexivity]. intros _. right. right. exists x.
      split; [exact F | apply Qltb_false, E].
Qed.

(** ** C10: the column test *)

Lemma max_col_value : max_col = 15%nat.
Proof. reflexivity. Qed.

(** C10: a row of at most 15 cells ends its iteration at the length test,
    whatever its state, with funds, orders and exchange untouched; so a
    row that gets past the test has its sentiment column, and the empty
    string of the conditional expression is never used. *)
Theorem short_row_rejected :
  (forall idx row (st : state),
     (length row <= 15)%nat ->
     required_fields idx row = inl (MsgNotEnoughColumns idx) /\
     validate idx row = inl (MsgNotEnoughColumns idx) /\
     loop_body idx row st = (Continue, py_print (MsgNotEnoughColumns idx) st)) /\
  (forall idx row,
     required_fields idx row <> inl (MsgNotEnoughColumns idx) ->
     has_sentiment_column row = true /\
     sentiment_str row = cell row COL_SENTIMENT).
Proof.
  split.
  - intros idx row st H.
    assert (R : required_fields idx row = inl (MsgNotEnoughColumns idx)).
    { unfold required_fields. rewrite max_col_value.
      apply Nat.leb_le in H. rewrite H. reflexivity. }
    assert (V : validate idx row = inl (MsgNotEnoughColumns idx)).
    { unfold validate. rewrite R. reflexivity. }
    repeat split; [exact R | exact V |].
    unfold loop_body. rewrite V. reflexivity.
  - intros idx row H.
    assert (L : has_sentiment_column row = true).
    { unfold has_sentiment_column, COL_SENTIMENT.
      unfold required_fields in H. rewrite max_col_value in H.
      destruct (length row <=? 15)%nat eqn:E; [congruence|].
      apply Nat.leb_gt in E. apply Nat.ltb_lt. exact E. }
    split; [exact L|]. unfold sentiment_str. rewrite L. reflexivity.
Qed.

(** ** The loop body, case by case *)

Lemma validate_sound (idx : nat) (row : list pystr) (c : candidate) :
  validate idx row = inr c ->
  (15 < length row)%nat /\
  0 < price c /\
  determine_tier_fraction (pct_down c) = Some (tier_fraction c) /\
  dict_get ICON_MULTIPLIERS (icon c) = Some (icon_mult c) /\
  ma_ratio c = long_ma c / price c /\
  sentiment_multiplier (Some (cell row COL_SENTIMENT)) = Some (sent_mult c) /\
  0 < sent_mult c.
Proof.
  unfold validate, required_fields. rewrite max_col_value.
  destruct (length row <=? 15)%nat eqn:L; [discriminate|].
  apply Nat.leb_gt in L.
  assert (S : sentiment_str row = cell row COL_SENTIMENT).
  { unfold sentiment_str, has_sentiment_column, COL_SENTIMENT.
    apply Nat.ltb_lt in L. rewrite L. reflexivity. }
  rewrite S.
  destruct (_ || _); [discriminate|].
  destruct (dict_get ICON_MULTIPLIERS _) as [im|] eqn:D; [|discriminate].
  destruct (parse_float (Some (cell row COL_PRICE))) as [p|]; [|discriminate].
  destruct (parse_float (Some (cell row COL_PCT_DOWN))) as [d|]; [|discriminate].
  destruct (parse_float (Some (cell row COL_LONG_MA))) as [l|]; [|discriminate].
  destruct (Qleb p 0) eqn:P; [discriminate|].
  destruct (determine_tier_fraction d) as [t|] eqn:T; [|discriminate].
  cbn [long_ma price symbol].
  destruct (sentiment_multiplier (Some (cell row COL_SENTIMENT))) as [sm|] eqn:M;
    [|discriminate].
  intros H. injection H as <-. cbn.
  repeat split; try assumption; try reflexivity.
  - apply Qleb_false, P.
  - rewrite sentiment_multiplier_parse in M.
    destruct (parse_float (Some (cell row COL_SENTIMENT))) as [v|]; [|discriminate].
    destruct (Qltb 0 v) eqn:V; [|discriminate].
    injection M as <-. apply Qltb_true, V.
Qed.

Lemma loop_body_rejected idx row (st : state) m :
  validate idx row = inl m ->
  loop_body idx row st = (Continue, py_print m st).
Proof. intros H. unfold loop_body. rewrite H. reflexivity. Qed.

Lemma loop_body_no_funds idx row (st : state) c :
  validate idx row = inr c -> remaining_funds st <= 0 ->
  loop_body idx row st = (Break, py_print MsgNoRemainingFunds st).
Proof.
  intros H F. unfold loop_body. rewrite H.
  apply Qleb_true in F. rewrite F. reflexivity.
Qed.

Lemma loop_body_below_minimum idx row (st : state) c :
  validate idx row = inr c -> 0 < remaining_funds st ->
  order_notional (remaining_funds st) c < MIN_ORDER_NOTIONAL ->
  loop_body idx row st =
  (Continue,
   py_print (MsgBelowMinimum idx (symbol c)
               (order_notional (remaining_funds st) c)) st).
Proof.
  intros H F M. unfold loop_body. rewrite H.
  apply Qleb_false in F. rewrite F.
  apply Qltb_true in M. rewrite M. reflexivity.
Qed.

Lemma loop_body_submits idx row (st : state) c :
  validate idx row = inr c -> 0 < remaining_funds st ->
  MIN_ORDER_NOTIONAL <= order_notional (remaining_funds st) c ->
  loop_body idx row st =
  (Continue, place_order idx c (order_notional (remaining_funds st) c) st).
Proof.
  intros H F M. unfold loop_body. rewrite H.
  apply Qleb_false in F. rewrite F.
  apply Qltb_false in M. rewrite M. reflexivity.
Qed.

Lemma loop_body_iteration idx row (st : state) :
  iteration idx row st (loop_body idx row st).
Proof.
  destruct (validate idx row) as [m|c] eqn:V.
  - rewrite (loop_body_rejected _ _ _ _ V). apply it_rejected, V.
  - destruct (Qlt_le_dec 0 (remaining_funds st)) as [F|F].
    + destruct (Qlt_le_dec (order_notional (remaining_funds st) c)
                  MIN_ORDER_NOTIONAL) as [M|M].
      * rewrite (loop_body_below_minimum _ _ _ _ V F M).
        apply (it_below_minimum _ _ _ c V F M).
      * rewrite (loop_body_submits _ _ _ _ V F M).
        apply (it_submitted _ _ _ c V F M).
    + rewrite (loop_body_no_funds _ _ _ _ V F). apply (it_no_funds _ _ _ c V F).
Qed.

(** What [place_order] leaves, by the outcome of the call. *)
Lemma place_order_returned idx c n (st : state) ex order_id :
  create_market_buy_order (client st) (market_symbol c) (n / price c)
  = (ex, OrderReturned order_id) ->
  place_order idx c n st =
  {| remaining_funds := remaining_funds st - n;
     orders_placed :=
       orders_placed st ++
         [ {| po_row := idx; po_symbol := symbol c;
              po_market_symbol := market_symbol c;
              po_notional := n; po_amount := n / price c;
              po_order_id := order_id |} ];
     stdout :=
       (stdout st ++ [ order_line idx c n ]) ++
         [ MsgOrderPlaced idx (symbol c) order_id n (remaining_funds st - n) ];
     client := ex |}.
Proof. intros H. unfold place_order. cbn. rewrite H. reflexivity. Qed.

Lemma place_order_failed idx c n (st : state) ex e :
  create_market_buy_order (client st) (market_symbol c) (n / price c)
  = (ex, BaseError e) ->
  place_order idx c n st =
  {| remaining_funds := remaining_funds st;
     orders_placed := orders_placed st;
     stdout :=
       (stdout st ++ [ order_line idx c n ]) ++
         [ MsgOrderFailed idx (symbol c) e ];
     client := ex |}.
Proof. intros H. unfold place_order. cbn. rewrite H. reflexivity. Qed.

(** ** The loop and [main] *)

Lemma for_rows_cons idx row rest (st : state) :
  for_rows idx (row :: rest) st =
  match loop_body idx row st with
  | (Break, st') => st'
  | (Continue, st') => for_rows (S idx) rest st'
  end.
Proof. reflexivity. Qed.

Lemma print_lines_keep (l : list placed_order) :
  forall st : state,
    let st' := fold_left (fun st o => py_print (MsgOrderLine o) st) l st in
    remaining_funds st' = remaining_funds st /\
    orders_placed st' = orders_placed st /\ client st' = client st.
Proof.
  induction l as [|o l IH]; intros st; cbn; [auto|].
  destruct (IH (py_print (MsgOrderLine o) st)) as [R [O C]].
  cbn in R, O, C. auto.
Qed.

(** [main] either returns before the loop, leaving the balance and no
    order, or runs the loop once from the balance and no order. *)
Lemma main_cases (all_values : list (list pystr)) (free_funds : Q)
    (ex : exchange) :
  ((length all_values < 2)%nat /\
   main all_values free_funds ex =
   {| remaining_funds := free_funds; orders_placed := [];
      stdout := [MsgStarting; MsgNoDataRows]; client := ex |}) \/
  ((2 <= length all_values)%nat /\ free_funds <= 0 /\
   main all_values free_funds ex =
   {| remaining_funds := free_funds; orders_placed := [];
      stdout := [MsgStarting; MsgHeader (hd [] all_values);
                 MsgLoaded (length (tl all_values));
                 MsgAvailableFunds free_funds; MsgNoAvailableFunds];
      client := ex |}) \/
  ((2 <= length all_values)%nat /\ 0 < free_funds /\
   exists st0 : state,
     remaining_funds st0 = free_funds /\ orders_placed st0 = [] /\
     client st0 = ex /\
     let st1 := for_rows 2 (tl all_values) st0 in
     remaining_funds (main all_values free_funds ex) = remaining_funds st1 /\
     orders_placed (main all_values free_funds ex) = orders_placed st1 /\
     client (main all_values free_funds ex) = client st1).
Proof.
  unfold main. destruct (length all_values <? 2)%nat eqn:L.
  - left. apply Nat.ltb_lt in L. split; [exact L | reflexivity].
  - right. apply Nat.ltb_ge in L. cbn [remaining_funds py_print].
    destruct (Qleb free_funds 0) eqn:F.
    + left. apply Qleb_true in F. repeat split; assumption.
    + right. apply Qleb_false in F. repeat split; try assumption.
      exists (py_print (MsgAvailableFunds free_funds)
                (py_print (MsgLoaded (length (tl all_values)))
                   (py_print (MsgHeader (hd [] all_values))
                      {| remaining_funds := free_funds; orders_placed := [];
                         stdout := [MsgStarting]; client := ex |}))).
      repeat split;
        cbv zeta;
        match goal with
        | |- context [fold_left _ ?l ?st] =>
            destruct (print_lines_keep l st) as [R [O C]]
        end; cbv zeta in R, O, C; [rewrite R | rewrite O | rewrite C];
        reflexivity.
Qed.

(** ** C6: the outcome of the order *)

(** C6: for a row that is sent to the exchange, when the call raises
    [ccxt.BaseError] the funds and the placed orders stay as they were, the
    failure is printed with the error, and the scan goes on with the next
    row; when the call returns, the notional is deducted and the order is
    appended to [orders_placed] with the identifier the exchange gave. *)
Theorem order_outcome idx row (st : state) c :
  validate idx row = inr c -> 0 < remaining_funds st ->
  MIN_ORDER_NOTIONAL <= order_notional (remaining_funds st) c ->
  let n := order_notional (remaining_funds st) c in
  let st' := snd (loop_body idx row st) in
  fst (loop_body idx row st) = Continue /\
  (forall rest, for_rows idx (row :: rest) st = for_rows (S idx) rest st') /\
  (forall ex e,
     create_market_buy_order (client st) (market_symbol c) (n / price c)
     = (ex, BaseError e) ->
     remaining_funds st' = remaining_funds st /\
     orders_placed st' = orders_placed st /\
     stdout st' =
       (stdout st ++ [ order_line idx c n ]) ++
         [ MsgOrderFailed idx (symbol c) e ] /\
     client st' = ex) /\
  (forall ex order_id,
     create_market_buy_order (client st) (market_symbol c) (n / price c)
     = (ex, OrderReturned order_id) ->
     remaining_funds st' = remaining_funds st - n /\
     orders_placed st' =
       orders_placed st ++
         [ {| po_row := idx; po_symbol := symbol c;
              po_market_symbol := market_symbol c;
              po_notional := n; po_amount := n / price c;
              po_order_id := order_id |} ] /\
     stdout st' =
       (stdout st ++ [ order_line idx c n ]) ++
         [ MsgOrderPlaced idx (symbol c) order_id n (remaining_funds st - n) ] /\
     client st' = ex).
Proof.
  intros V F M n st'. subst st'.
  assert (L : loop_body idx row st = (Continue, place_order idx c n st))
    by apply (loop_body_submits _ _ _ _ V F M).
  rewrite L. cbn [fst snd].
  repeat split.
  - intros rest. rewrite for_rows_cons, L. reflexivity.
  - apply (f_equal remaining_funds (place_order_failed idx c n st ex e H)).
  - apply (f_equal orders_placed (place_order_failed idx c n st ex e H)).
  - apply (f_equal stdout (place_order_failed idx c n st ex e H)).
  - apply (f_equal client (place_order_failed idx c n st ex e H)).
  - apply (f_equal remaining_funds (place_order_returned idx c n st ex order_id H)).
  - apply (f_equal orders_placed (place_order_returned idx c n st ex order_id H)).
  - apply (f_equal stdout (place_order_returned idx c n st ex order_id H)).
  - apply (f_equal client (place_order_returned idx c n st ex order_id H)).
Qed.

(** ** C7: rows without a usable sentiment *)

(** C7: the sentiment multiplier is undefined exactly when the field is
    empty after trimming, is refused by [float()], or parses to a value
    that is not positive; a row in that case ends its iteration at a
    printed line with funds, orders and exchange as they were, and that
    line is the sentiment one whenever the other columns pass their
    tests. *)
Theorem sentiment_gate :
  (forall s,
     sentiment_multiplier (Some s) = None <->
     (strip s = [] \/ float (strip s) = ValueError \/
      exists val, float (strip s) = FloatValue val /\ val <= 0)) /\
  (forall idx row (st : state),
     sentiment_multiplier (Some (sentiment_str row)) = None ->
     (exists m, loop_body idx row st = (Continue, py_print m st)) /\
     remaining_funds (snd (loop_body idx row st)) = remaining_funds st /\
     orders_placed (snd (loop_body idx row st)) = orders_placed st /\
     client (snd (loop_body idx row st)) = client st /\
     (forall f, required_fields idx row = inr f ->
        loop_body idx row st =
        (Continue, py_print (MsgSentimentMissing idx (symbol f)) st))).
Proof.
  split; [exact sentiment_multiplier_none|].
  intros idx row st H.
  assert (V : exists m, validate idx row = inl m /\
              forall f, required_fields idx row = inr f ->
                        m = MsgSentimentMissing idx (symbol f)).
  { unfold validate. destruct (required_fields idx row) as [m|f].
    - exists m. split; [reflexivity | discriminate].
    - rewrite H. eexists. split; [reflexivity|]. intros f' K. congruence. }
  destruct V as [m [V K]]. rewrite (loop_body_rejected _ _ st _ V). cbn.
  repeat split; [exists m; reflexivity|].
  intros f R. rewrite (K f R). reflexivity.
Qed.

(** ** C4: funds run out *)

Lemma for_rows_no_funds (rows : list (list pystr)) :
  forall idx (st : state),
    remaining_funds st <= 0 ->
    remaining_funds (for_rows idx rows st) = remaining_funds st /\
    orders_placed (for_rows idx rows st) = orders_placed st /\
    client (for_rows idx rows st) = client st.
Proof.
  induction rows as [|row rest IH]; intros idx st F; [cbn; auto|].
  rewrite for_rows_cons.
  destruct (validate idx row) as [m|c] eqn:V.
  - rewrite (loop_body_rejected _ _ _ _ V).
    destruct (IH (S idx) (py_print m st) F) as [R [O C]]. cbn in R, O, C. auto.
  - rewrite (loop_body_no_funds _ _ _ _ V F). cbn. auto.
Qed.

(** C4, amended: with no funds left, a row that fails one of the tests of
    the loop body, up to the sentiment gate, is still read, tested and
    reported, and the scan goes on to the next row; the scan stops at the
    first row that passes all of them, before sizing it.  No order is sent
    and funds, orders and exchange stay as they are.  With a balance of
    zero or less at the start, [main] returns before the loop: no row is
    read and there is no order. *)
Theorem scan_without_funds :
  (forall idx row rest (st : state) m,
     remaining_funds st <= 0 -> validate idx row = inl m ->
     loop_body idx row st = (Continue, py_print m st) /\
     for_rows idx (row :: rest) st = for_rows (S idx) rest (py_print m st)) /\
  (forall idx row rest (st : state) c,
     remaining_funds st <= 0 -> validate idx row = inr c ->
     loop_body idx row st = (Break, py_print MsgNoRemainingFunds st) /\
     for_rows idx (row :: rest) st = py_print MsgNoRemainingFunds st) /\
  (forall idx rows (st : state),
     remaining_funds st <= 0 ->
     remaining_funds (for_rows idx rows st) = remaining_funds st /\
     orders_placed (for_rows idx rows st) = orders_placed st /\
     client (for_rows idx rows st) = client st) /\
  (forall all_values free_funds ex,
     free_funds <= 0 ->
     let st := main all_values free_funds ex in
     orders_placed st = [] /\ client st = ex /\
     remaining_funds st = free_funds /\
     (stdout st = [MsgStarting; MsgNoDataRows] \/
      stdout st = [MsgStarting; MsgHeader (hd [] all_values);
                   MsgLoaded (length (tl all_values));
                   MsgAvailableFunds free_funds; MsgNoAvailableFunds])).
Proof.
  split; [|split; [|split]].
  - intros idx row rest st m _ V.
    rewrite for_rows_cons, (loop_body_rejected _ _ _ _ V). auto.
  - intros idx row rest st c F V.
    rewrite for_rows_cons, (loop_body_no_funds _ _ _ _ V F). auto.
  - intros idx rows st F. apply for_rows_no_funds, F.
  - intros all_values free_funds ex F st. subst st.
    destruct (main_cases all_values free_funds ex)
      as [[_ E]|[[_ [_ E]]|[_ [P _]]]].
    + rewrite E. cbn. auto.
    + rewrite E. cbn. auto 6.
    + exfalso. apply (Qlt_not_le _ _ P), F.
Qed.

(** ** C8: scenario A *)

(** C8: with 1000 left, a row of tier 0.05 with icon multiplier 1.0, a long
    MA equal to the price and sentiment 1.0 is sized 50; with a minimum
    notional of 5 the order is sent, and when the exchange returns it the
    order is recorded with notional 50 and 950 are left. *)
Theorem scenario_A idx row (st : state) c :
  validate idx row = inr c ->
  remaining_funds st == 1000 ->
  tier_fraction c == 0.05 -> icon_mult c == 1.0 ->
  long_ma c == price c -> sent_mult c == 1.0 ->
  MIN_ORDER_NOTIONAL == 5 ->
  let n := order_notional (remaining_funds st) c in
  n == 50 /\
  loop_body idx row st = (Continue, place_order idx c n st) /\
  (forall ex order_id,
     create_market_buy_order (client st) (market_symbol c) (n / price c)
     = (ex, OrderReturned order_id) ->
     let st' := snd (loop_body idx row st) in
     remaining_funds st' == 950 /\
     exists o, orders_placed st' = orders_placed st ++ [o] /\
               po_notional o == 50 /\ po_order_id o = order_id).
Proof.
  intros V F T I L S M n.
  destruct (validate_sound _ _ _ V) as [_ [P [_ [_ [Ma _]]]]].
  assert (R : ma_ratio c == 1).
  { rewrite Ma, L. field. intros Z. rewrite Z in P. revert P. apply Qlt_irrefl. }
  assert (N : n == 50).
  { subst n. unfold order_notional.
    set (raw := remaining_funds st * tier_fraction c * icon_mult c * ma_ratio c
                * sent_mult c).
    assert (Raw : raw == 50) by (subst raw; rewrite F, T, I, R, S; reflexivity).
    destruct (py_min_cases raw (remaining_funds st)) as [[K ->]|[K ->]].
    - exfalso. rewrite Raw, F in K. revert K. apply Qle_not_lt. discriminate.
    - exact Raw. }
  assert (Pos : 0 < remaining_funds st) by (rewrite F; reflexivity).
  assert (Min : MIN_ORDER_NOTIONAL <= n) by (rewrite M, N; discriminate).
  assert (Lb : loop_body idx row st = (Continue, place_order idx c n st))
    by apply (loop_body_submits _ _ _ _ V Pos Min).
  split; [exact N|]. split; [exact Lb|].
  intros ex order_id H st'. subst st'. rewrite Lb. cbn [snd].
  rewrite (place_order_returned idx c n st ex order_id H). cbn.
  split.
  - rewrite F, N. reflexivity.
  - eexists. split; [reflexivity|]. cbn. split; [exact N | reflexivity].
Qed.

End EngineProperties.


(** * Further properties of the code *)

(** ** The tiers *)

(** X1: the tier depends on the magnitude of the drawdown only: a
    percentage and its opposite get the same tier. *)
Theorem determine_tier_fraction_sign (pct_down : Q) :
  determine_tier_fraction (- pct_down) = determine_tier_fraction pct_down.
Proof.
  unfold determine_tier_fraction.
  assert (E : Qabs (- pct_down) = Qabs pct_down).
  { destruct pct_down as [n d]. unfold Qabs, Qopp. cbn. rewrite Z.abs_opp.
    reflexivity. }
  rewrite E. reflexivity.
Qed.

Ltac tier_tests :=
  repeat match goal with
         | H : context [Qleb ?a ?b && Qleb ?c ?d] |- _ =>
             let E := fresh "E" in
             destruct (Qleb a b && Qleb c d) eqn:E;
             [ apply tier_test in E
             | rewrite <- not_true_iff_false, tier_test in E ]
         end.

(** X2: a deeper drawdown never gets a smaller share: when two magnitudes
    both have a tier, the larger magnitude has the larger or equal
    fraction. *)
Theorem determine_tier_fraction_monotone (p q t u : Q) :
  Qabs p <= Qabs q ->
  determine_tier_fraction p = Some t ->
  determine_tier_fraction q = Some u ->
  t <= u.
Proof.
  unfold determine_tier_fraction. intros L P R.
  tier_tests;
    try discriminate;
    injection P as <-; injection R as <-;
    try (vm_compute; discriminate);
    exfalso; lra.
Qed.

Lemma determine_tier_fraction_monotone_witness :
  exists t u, determine_tier_fraction (-30) = Some t /\
              determine_tier_fraction (-80) = Some u /\ t <= u.
Proof.
  exists 0.10, 0.20. split; [reflexivity|]. split; [reflexivity|].
  apply (determine_tier_fraction_monotone (-30) (-80) 0.10 0.20).
  - vm_compute. discriminate.
  - reflexivity.
  - reflexivity.
Defined.

(** ** White space around a cell *)

Lemma str_eqb_eq (s t : pystr) : str_eqb s t = true <-> s = t.
Proof.
  revert t. induction s as [|c s IH]; intros [|d t]; cbn;
    try (split; congruence).
  rewrite andb_true_iff, N.eqb_eq, IH. split.
  - intros [-> ->]. reflexivity.
  - intros H. injection H as -> ->. auto.
Qed.

Lemma lstrip_app_spaces (l s : pystr) :
  forallb isspace l = true -> lstrip (l ++ s) = lstrip s.
Proof.
  induction l as [|c l IH]; cbn; [reflexivity|].
  intros H. apply andb_true_iff in H. destruct H as [-> H]. apply IH, H.
Qed.

Lemma lstrip_app (s r : pystr) :
  lstrip (s ++ r) = match lstrip s with [] => lstrip r | _ :: _ => lstrip s ++ r end.
Proof.
  induction s as [|c s IH]; cbn; [reflexivity|].
  destruct (isspace c); [exact IH | reflexivity].
Qed.

Lemma rstrip_app_spaces (s r : pystr) :
  forallb isspace r = true -> rstrip (s ++ r) = rstrip s.
Proof.
  intros H. unfold rstrip. rewrite rev_app_distr, lstrip_app_spaces; [reflexivity|].
  rewrite forallb_forall in *. intros x Hx. apply H, in_rev, Hx.
Qed.

Lemma strip_padding (l s r : pystr) :
  forallb isspace l = true -> forallb isspace r = true ->
  strip (l ++ s ++ r) = strip s.
Proof.
  intros L R. unfold strip. rewrite (lstrip_app_spaces l _ L), lstrip_app.
  destruct (lstrip s) as [|c t] eqn:E.
  - rewrite (lstrip_spaces r R). reflexivity.
  - apply (rstrip_app_spaces (c :: t) r R).
Qed.

Section MoreProperties.

Context {env : Env}.

(** X3: white space around a cell does not change what is read from it:
    a cell padded on either side with white space gives the same number,
    and the same sentiment multiplier, as the cell without the padding. *)
Theorem parse_float_padding (l s r : pystr) :
  forallb isspace l = true -> forallb isspace r = true ->
  parse_float (Some (l ++ s ++ r)) = parse_float (Some s) /\
  sentiment_multiplier (Some (l ++ s ++ r)) = sentiment_multiplier (Some s).
Proof.
  intros L R. unfold sentiment_multiplier, parse_float.
  rewrite (strip_padding l s r L R). split; reflexivity.
Qed.

(** X4: the sentiment multiplier is the number read from the cell, as it
    is, exactly when that number is positive; no other value is ever
    returned. *)
Theorem sentiment_multiplier_value (s : pystr) (v : Q) :
  sentiment_multiplier (Some s) = Some v <->
  parse_float (Some s) = Some v /\ 0 < v.
Proof.
  rewrite sentiment_multiplier_parse.
  destruct (parse_float (Some s)) as [x|]; [|split; [discriminate | intros [H _]; discriminate H]].
  destruct (Qltb 0 x) eqn:E.
  - apply Qltb_true in E. split.
    + intros H. injection H as <-. split; [reflexivity | exact E].
    + intros [H _]. exact H.
  - apply Qltb_false in E. split; [discriminate|].
    intros [H P]. injection H as ->. exfalso. apply (Qlt_not_le _ _ P), E.
Qed.

(** ** The icon test *)

Lemma dict_get_not_in (k : pystr) :
  ~ In k (map fst ICON_MULTIPLIERS) -> dict_get ICON_MULTIPLIERS k = None.
Proof.
  unfold ICON_MULTIPLIERS. cbn [dict_get map fst]. intros H.
  repeat match goal with
         | |- context [str_eqb k ?i] =>
             let E := fresh "E" in
             destruct (str_eqb k i) eqn:E;
             [ apply str_eqb_eq in E; subst k; exfalso; apply H; cbn; tauto |]
         end.
  reflexivity.
Qed.

(** X6: a row with its sixteen columns and its five required cells filled
    whose icon, once trimmed, is not one of the five of the table ends
    its iteration at the icon test: the refusal names the icon, nothing
    else changes, and whether the price, the drawdown, the long MA or the
    sentiment can be read plays no part. *)
Theorem icon_not_allowed (idx : nat) (row : list pystr) (st : state) :
  (15 < length row)%nat ->
  upper (strip (cell row COL_SYMBOL)) <> [] ->
  cell row COL_PRICE <> [] -> cell row COL_PCT_DOWN <> [] ->
  cell row COL_LONG_MA <> [] -> strip (cell row COL_ICON) <> [] ->
  ~ In (strip (cell row COL_ICON)) [GEM; COLLISION; ROCKET; SPARKLES; BAR_CHART] ->
  loop_body idx row st =
  (Continue,
   py_print (MsgIconNotAllowed idx (upper (strip (cell row COL_SYMBOL)))
               (strip (cell row COL_ICON))) st).
Proof.
  intros L S P D M I N.
  apply loop_body_rejected. unfold validate, required_fields.
  rewrite max_col_value. apply Nat.leb_gt in L. rewrite L.
  assert (T : forall s : pystr, s <> [] -> py_not s = false)
    by (intros [|a s] H; [contradiction | reflexivity]).
  rewrite (T _ S), (T _ P), (T _ D), (T _ M), (T _ I). cbn [orb].
  rewrite (dict_get_not_in _ N). reflexivity.
Qed.

(** ** The scan as a whole *)

Lemma loop_body_adds (idx : nat) (row : list pystr) (st : state) :
  orders_placed (snd (loop_body idx row st)) = orders_placed st \/
  exists o, orders_placed (snd (loop_body idx row st)) = orders_placed st ++ [o]
            /\ po_row o = idx.
Proof.
  destruct (loop_body_iteration idx row st) as [m V|c V F|c V F M|c V F M];
    cbn [snd]; try (left; reflexivity).
  destruct (create_market_buy_order (client st) (market_symbol c)
              (order_notional (remaining_funds st) c / price c))
    as [ex [order_id|e]] eqn:H.
  - right. rewrite (place_order_returned _ _ _ _ _ _ H). cbn.
    eexists. split; reflexivity.
  - left. rewrite (place_order_failed _ _ _ _ _ _ H). reflexivity.
Qed.

Lemma for_rows_row_order (rows : list (list pystr)) :
  forall idx (st : state),
  exists placed,
    orders_placed (for_rows idx rows st) = orders_placed st ++ placed /\
    StronglySorted lt (map po_row placed) /\
    Forall (fun o => (idx <= po_row o < idx + length rows)%nat) placed /\
    (length placed <= length rows)%nat.
Proof.
  induction rows as [|row rest IH]; intros idx st.
  - exists []. cbn. rewrite app_nil_r. repeat split; constructor.
  - rewrite for_rows_cons. pose proof (loop_body_adds idx row st) as A.
    destruct (loop_body idx row st) as [[|] st1]; cbn [snd] in A.
    + destruct (IH (S idx) st1) as [placed [O [Srt [B Len]]]].
      cbn [length].
      assert (B' : Forall (fun o => (idx < po_row o < idx + S (length rest))%nat)
                     placed).
      { revert B. apply Forall_impl. intros o. lia. }
      destruct A as [A|[o [A R]]].
      * exists placed. rewrite O, A. repeat split; try assumption.
        -- revert B'. apply Forall_impl. intros o. lia.
        -- lia.
      * exists (o :: placed). rewrite O, A, <- app_assoc. cbn [app map length].
        repeat split.
        -- constructor; [exact Srt|]. rewrite R. apply Forall_map.
           revert B'. apply Forall_impl. intros o'. lia.
        -- constructor; [lia|]. revert B'. apply Forall_impl. intros o'. lia.
        -- lia.
    + destruct A as [A|[o [A R]]].
      * exists []. rewrite A, app_nil_r. cbn. repeat split; constructor.
        apply Nat.le_0_l.
      * exists [o]. rewrite A. cbn. repeat split.
        -- repeat constructor.
        -- constructor; [lia | constructor].
        -- lia.
Qed.

(** X11: the orders a scan places are in the order of the rows, at most
    one per row: their sheet row numbers are strictly increasing and lie
    among the numbers of the rows scanned; for [main] these are the
    numbers 2 to the number of rows of the sheet. *)
Theorem orders_in_row_order :
  (forall rows idx (st : state),
   exists placed,
     orders_placed (for_rows idx rows st) = orders_placed st ++ placed /\
     StronglySorted lt (map po_row placed) /\
     Forall (fun o => (idx <= po_row o < idx + length rows)%nat) placed /\
     (length placed <= length rows)%nat) /\
  (forall all_values free_funds ex,
     let placed := orders_placed (main all_values free_funds ex) in
     StronglySorted lt (map po_row placed) /\
     Forall (fun o => (2 <= po_row o <= length all_values)%nat) placed /\
     (length placed <= length all_values - 1)%nat).
Proof.
  split; [exact for_rows_row_order|].
  intros all_values free_funds ex placed. subst placed.
  destruct (main_cases all_values free_funds ex)
    as [[_ E]|[[_ [_ E]]|[L [_ [st0 [_ [O0 [_ [_ [O _]]]]]]]]]].
  - rewrite E. cbn. repeat split; try constructor. lia.
  - rewrite E. cbn. repeat split; try constructor. lia.
  - rewrite O.
    destruct (for_rows_row_order (tl all_values) 2%nat st0)
      as [placed [P [Srt [B Len]]]].
    rewrite P, O0. cbn [app].
    assert (T : length (tl all_values) = (length all_values - 1)%nat)
      by (destruct all_values; cbn; lia).
    rewrite T in B, Len. repeat split; try assumption.
    revert B. apply Forall_impl. intros o. lia.
Qed.

Lemma loop_body_break (idx : nat) (row : list pystr) (st st' : state) :
  loop_body idx row st = (Break, st') -> remaining_funds st' <= 0.
Proof.
  intros H. pose proof (loop_body_iteration idx row st) as It.
  rewrite H in It. inversion It; subst. cbn. assumption.
Qed.

(** X12: scanning a list of rows in two parts is scanning it whole: when
    funds are left after the first part, the scan of the whole list is
    the scan of the second part, numbered on, from the state the first
    part leaves. *)
Theorem for_rows_app (rows1 rows2 : list (list pystr)) :
  forall idx (st : state),
    0 < remaining_funds (for_rows idx rows1 st) ->
    for_rows idx (rows1 ++ rows2) st
    = for_rows (idx + length rows1) rows2 (for_rows idx rows1 st).
Proof.
  induction rows1 as [|row rest IH]; intros idx st F.
  - cbn. rewrite Nat.add_0_r. reflexivity.
  - rewrite <- app_comm_cons, !for_rows_cons. rewrite for_rows_cons in F.
    destruct (loop_body idx row st) as [[|] st1] eqn:L.
    + cbn [length]. rewrite Nat.add_succ_r. apply (IH (S idx) st1 F).
    + exfalso. apply (Qlt_not_le _ _ F). apply (loop_body_break _ _ _ _ L).
Qed.

Lemma print_lines (l : list placed_order) :
  forall st : state,
    fold_left (fun st o => py_print (MsgOrderLine o) st) l st
    = {| remaining_funds := remaining_funds st;
         orders_placed := orders_placed st;
         stdout := stdout st ++ map MsgOrderLine l;
         client := client st |}.
Proof.
  induction l as [|o l IH]; intros st.
  - cbn. rewrite app_nil_r. destruct st; reflexivity.
  - cbn [fold_left map]. rewrite IH. cbn. rewrite <- app_assoc. reflexivity.
Qed.

(** X13: a run of [main] that reaches the loop ends its output with the
    summary: the line of completion, the number of orders placed, and one
    line for each placed order, in the order of placing; the summary
    leaves funds, orders and exchange as the loop left them. *)
Theorem main_summary (all_values : list (list pystr)) (free_funds : Q)
    (ex : exchange) :
  (2 <= length all_values)%nat -> 0 < free_funds ->
  let st0 : state :=
    {| remaining_funds := free_funds; orders_placed := [];
       stdout := [MsgStarting; MsgHeader (hd [] all_values);
                  MsgLoaded (length (tl all_values));
                  MsgAvailableFunds free_funds];
       client := ex |} in
  let st1 := for_rows 2 (tl all_values) st0 in
  main all_values free_funds ex
  = {| remaining_funds := remaining_funds st1;
       orders_placed := orders_placed st1;
       stdout :=
         stdout st1
         ++ [MsgRunComplete; MsgTotalOrders (length (orders_placed st1))]
         ++ map MsgOrderLine (orders_placed st1);
       client := client st1 |}.
Proof.
  intros L F st0 st1. unfold main.
  apply Nat.ltb_ge in L. rewrite L. cbn [remaining_funds py_print].
  apply Qleb_false in F. rewrite F. cbn [app].
  fold st0. fold st1. rewrite print_lines. cbn.
  rewrite <- !app_assoc. reflexivity.
Qed.

(** ** The free balance *)

Lemma get_default_none (o : option py_value) :
  match o with Some v => v | None => PyNone end = PyNone ->
  o = None \/ o = Some PyNone.
Proof. destruct o as [v|]; [intros ->; right | left]; reflexivity. Qed.

Ltac balance_cases H :=
  repeat (match type of H with
          | context [py_get ?v _ _] => is_var v; destruct v
          | context [py_float ?v] => is_var v; destruct v
          | context [match ?x with _ => _ end] =>
              let E := fresh "E" in destruct x eqn:E
          end; cbn [bind py_get py_float] in H; try discriminate H).

(** X15: the free balance is read from the entry of the currency first,
    [balance[BASE_CURRENCY]["free"]], whatever the generic structure
    holds; when that entry is missing or has no free amount, it is read
    from the generic structure, [balance["free"][BASE_CURRENCY]]. *)
Theorem free_balance_lookup (items : list (pystr * py_value)) (x : Q) :
  (forall entry,
     items_get items BASE_CURRENCY = Some (PyDict entry) ->
     items_get entry FREE = Some (PyFloat x) ->
     free_balance (PyDict items) = Returns x) /\
  (forall free_items,
     nested_none items BASE_CURRENCY FREE ->
     items_get items FREE = Some (PyDict free_items) ->
     items_get free_items BASE_CURRENCY = Some (PyFloat x) ->
     free_balance (PyDict items) = Returns x).
Proof.
  split.
  - intros entry B F. unfold free_balance. cbn [bind py_get]. rewrite B.
    cbn [bind py_get]. rewrite F. reflexivity.
  - intros free_items N G F. unfold free_balance. cbn [bind py_get].
    destruct N as [B|[inner [B [I|I]]]]; rewrite B; cbn [bind py_get];
      try rewrite I; cbn [bind py_get]; rewrite G; cbn [bind py_get];
      rewrite F; reflexivity.
Qed.

(** X16: the reading of the balance ends the program with exit code 1
    exactly when neither structure gives a free amount for the currency:
    the entry of the currency is missing or has no free amount, and the
    generic structure is missing or has no amount for the currency. *)
Theorem free_balance_fatal (items : list (pystr * py_value)) :
  free_balance (PyDict items) = Exits 1 (NoFreeBalance BASE_CURRENCY) <->
  nested_none items BASE_CURRENCY FREE /\ nested_none items FREE BASE_CURRENCY.
Proof.
  unfold nested_none, gives_none. split.
  - intros H. unfold free_balance, fatal in H. cbn [bind py_get] in H.
    balance_cases H;
      (split;
       first [ left; reflexivity
             | left; assumption
             | right; eexists; split;
               [ first [reflexivity | eassumption]
               | first [solve [auto] | apply get_default_none; assumption] ] ]).
  - intros [[B|[entry [B [I|I]]]] [G|[fi [G [F|F]]]]];
      unfold free_balance, fatal; cbn [bind py_get]; rewrite B;
      cbn [bind py_get]; try rewrite I; cbn [bind py_get]; rewrite G;
      cbn [bind py_get]; try rewrite F; reflexivity.
Qed.

End MoreProperties.

(** * The model at work

    The theorems above applied in the concrete environment of [Run], to
    rows as the sheet gives them, and the run that contradicts C4 as the
    claim states it. *)

Example tier_at_the_boundaries :
  determine_tier_fraction 25 = Some 0.05 /\
  determine_tier_fraction (-50) = Some 0.10 /\
  determine_tier_fraction 75 = Some 0.15 /\
  determine_tier_fraction (-99.9) = Some 0.20 /\
  determine_tier_fraction 25.5 = None /\
  determine_tier_fraction 100 = None.
Proof. repeat split. Qed.

Example strip_trims_both_ends : strip (lit "  eth ") = lit "eth".
Proof. reflexivity. Qed.

Example parse_float_reads_decimals :
  parse_float (env := Run.env 5) (Some (lit " 12.5 ")) = Some 12.5 /\
  parse_float (env := Run.env 5) (Some (lit "")) = None /\
  parse_float (env := Run.env 5) (Some (lit "12,5")) = None.
Proof. repeat split. Qed.

Example sentiment_multiplier_needs_a_positive_value :
  sentiment_multiplier (env := Run.env 5) (Some (lit "1.5")) = Some 1.5 /\
  sentiment_multiplier (env := Run.env 5) (Some (lit "0")) = None /\
  sentiment_multiplier (env := Run.env 5) (Some (lit "-2")) = None /\
  sentiment_multiplier (env := Run.env 5) (Some (lit "  ")) = None.
Proof. repeat split. Qed.

Lemma validate_eth_row mn : validate (env := Run.env mn) 2 Run.eth_row = inr Run.eth.
Proof. vm_compute. reflexivity. Defined.

Lemma validate_sol_row mn : validate (env := Run.env mn) 2 Run.sol_row = inr Run.sol.
Proof. vm_compute. reflexivity. Defined.

Lemma parse_float_total_absent_witness :
  parse_float (env := Run.env 5) (Some (lit "   ")) = None /\
  parse_float (env := Run.env 5) (Some (lit "n/a")) = None.
Proof.
  pose proof (parse_float_total_absent (env := Run.env 5))
    as [_ [_ [_ [Hspace [Htext _]]]]].
  split.
  - apply Hspace. vm_compute. reflexivity.
  - apply Htext. vm_compute. reflexivity.
Defined.

Lemma short_row_rejected_witness :
  validate (env := Run.env 5) 2 Run.cut_row = inl (MsgNotEnoughColumns 2) /\
  has_sentiment_column Run.eth_row = true.
Proof.
  pose proof (short_row_rejected (env := Run.env 5)) as [Hshort Hlong].
  split.
  - apply (Hshort 2%nat Run.cut_row (Run.start 5 1000 [])).
    vm_compute. lia.
  - apply (Hlong 2%nat Run.eth_row). vm_compute. discriminate.
Defined.

Lemma sentiment_gate_witness :
  loop_body (env := Run.env 5) 2 Run.eth_row_no_sentiment (Run.start 5 1000 [])
  = (Continue,
     py_print (MsgSentimentMissing 2 (lit "ETH")) (Run.start 5 1000 [])).
Proof.
  pose proof (sentiment_gate (env := Run.env 5)) as [_ H].
  destruct (H 2%nat Run.eth_row_no_sentiment (Run.start 5 1000 []))
    as [_ [_ [_ [_ K]]]].
  - vm_compute. reflexivity.
  - apply (K Run.eth_fields). vm_compute. reflexivity.
Defined.

Lemma order_outcome_witness :
  let st := Run.start 5 1000 [BaseError Run.REJECTED] in
  let st' := snd (loop_body (env := Run.env 5) 2 Run.eth_row st) in
  remaining_funds st' = 1000 /\ orders_placed st' = [] /\
  stdout st' =
    [ order_line (env := Run.env 5) 2 Run.eth (order_notional 1000 Run.eth);
      MsgOrderFailed 2 (lit "ETH") Run.REJECTED ].
Proof.
  intros st st'.
  assert (F : 0 < remaining_funds st) by (vm_compute; reflexivity).
  assert (M : MIN_ORDER_NOTIONAL (Env := Run.env 5)
              <= order_notional (remaining_funds st) Run.eth)
    by (vm_compute; discriminate).
  destruct (order_outcome (env := Run.env 5) 2 Run.eth_row st Run.eth
              (validate_eth_row 5) F M) as [_ [_ [Hfail _]]].
  destruct (Hfail [] Run.REJECTED) as [R [O [S _]]].
  - vm_compute. reflexivity.
  - split; [exact R | split; [exact O | exact S]].
Defined.

Lemma scenario_A_witness :
  let st := Run.start 5 1000 [OrderReturned (Some Run.OID1)] in
  let st' := snd (loop_body (env := Run.env 5) 2 Run.eth_row st) in
  order_notional 1000 Run.eth == 50 /\
  remaining_funds st' == 950 /\
  exists o, orders_placed st' = [o] /\ po_notional o == 50 /\
            po_order_id o = Some Run.OID1.
Proof.
  intros st st'.
  destruct (scenario_A (env := Run.env 5) 2 Run.eth_row st Run.eth
              (validate_eth_row 5))
    as [N [_ H]]; try (vm_compute; reflexivity).
  split; [exact N|].
  apply (H [] (Some Run.OID1)). vm_compute. reflexivity.
Defined.

Lemma scan_without_funds_witness :
  let st := Run.start 5 0 [OrderReturned (Some Run.OID1)] in
  loop_body (env := Run.env 5) 2 Run.eth_row st
  = (Break, py_print MsgNoRemainingFunds st) /\
  orders_placed
    (main (env := Run.env 5) [Run.header; Run.eth_row] 0
       [OrderReturned (Some Run.OID1)]) = [].
Proof.
  intros st.
  pose proof (scan_without_funds (env := Run.env 5)) as [_ [Hstop [_ Hmain]]].
  split.
  - apply (Hstop 2%nat Run.eth_row [] st Run.eth).
    + vm_compute. discriminate.
    + apply validate_eth_row.
  - apply (Hmain [Run.header; Run.eth_row] 0 [OrderReturned (Some Run.OID1)]).
    vm_compute. discriminate.
Defined.

(** C4, as the claim states it, fails.  SOL takes the whole 100, which
    leaves exactly 0; the next row, ETH without a sentiment, is still read,
    classified and reported as skipped for its sentiment, and the scan goes
    on: it does not stop at once when the funds are gone. *)
Lemma scan_goes_on_without_funds :
  let st0 := Run.start 5 100 [OrderReturned (Some Run.OID1)] in
  let st1 := snd (loop_body (env := Run.env 5) 2 Run.sol_row st0) in
  remaining_funds st1 == 0 /\
  loop_body (env := Run.env 5) 3 Run.eth_row_no_sentiment st1
  = (Continue, py_print (MsgSentimentMissing 3 (lit "ETH")) st1) /\
  ~ (forall (env : Env) idx row (st : state),
       remaining_funds st <= 0 -> fst (loop_body idx row st) = Break).
Proof.
  intros st0 st1. split; [vm_compute; reflexivity|].
  split; [vm_compute; reflexivity|].
  intros H.
  specialize (H (Run.env 5) 3%nat Run.eth_row_no_sentiment st1).
  assert (F : remaining_funds st1 <= 0) by (vm_compute; discriminate).
  specialize (H F). vm_compute in H. discriminate H.
Qed.

(** ** Further runs *)

Lemma parse_float_padding_witness :
  parse_float (env := Run.env 5) (Some (lit "  12.5 ")) = Some 12.5.
Proof.
  destruct (parse_float_padding (env := Run.env 5) (lit "  ") (lit "12.5") (lit " "))
    as [H _]; [reflexivity | reflexivity |].
  exact H.
Defined.

Lemma sentiment_multiplier_value_witness :
  sentiment_multiplier (env := Run.env 5) (Some (lit "1.5")) = Some 1.5.
Proof.
  apply (proj2 (sentiment_multiplier_value (env := Run.env 5) (lit "1.5") 1.5)).
  split; reflexivity.
Defined.

Lemma icon_not_allowed_witness :
  loop_body (env := Run.env 5) 2 Run.ice_row (Run.start 5 1000 [])
  = (Continue,
     py_print (MsgIconNotAllowed 2 (lit "ICE") [129482%N]) (Run.start 5 1000 [])).
Proof.
  apply (icon_not_allowed (env := Run.env 5) 2 Run.ice_row (Run.start 5 1000 []));
    try (vm_compute; lia); try (vm_compute; discriminate).
  vm_compute. intros [H|[H|[H|[H|[H|[]]]]]]; discriminate H.
Defined.

Lemma for_rows_app_witness :
  let st := Run.start 5 1000 [OrderReturned (Some Run.OID1)] in
  for_rows (env := Run.env 5) 2 [Run.eth_row; Run.ada_row] st
  = for_rows (env := Run.env 5) 3 [Run.ada_row]
      (for_rows (env := Run.env 5) 2 [Run.eth_row] st).
Proof.
  intros st.
  apply (for_rows_app (env := Run.env 5) [Run.eth_row] [Run.ada_row] 2 st).
  vm_compute. reflexivity.
Defined.

Lemma main_summary_witness :
  let ex := [OrderReturned (Some Run.OID1)] in
  exists st1 : @state (Run.env 5),
    stdout (main (env := Run.env 5) [Run.header; Run.eth_row] 1000 ex)
    = stdout st1 ++ [MsgRunComplete; MsgTotalOrders 1]
      ++ map MsgOrderLine (orders_placed st1).
Proof.
  intros ex. eexists.
  rewrite (main_summary (env := Run.env 5) [Run.header; Run.eth_row] 1000 ex);
    [| vm_compute; lia | vm_compute; reflexivity].
  cbn [stdout]. reflexivity.
Defined.

Lemma free_balance_lookup_witness :
  free_balance (env := Run.env 5) (Run.ccxt_balance 1000) = Returns 1000 /\
  free_balance (env := Run.env 5) (Run.generic_balance 250) = Returns 250.
Proof.
  split.
  - eapply (proj1 (free_balance_lookup (env := Run.env 5) _ 1000)); reflexivity.
  - eapply (proj2 (free_balance_lookup (env := Run.env 5) _ 250));
      [left; reflexivity | reflexivity | reflexivity].
Defined.

Lemma free_balance_fatal_witness :
  free_balance (env := Run.env 5) Run.other_balance
  = Exits 1 (NoFreeBalance Run.USD).
Proof.
  apply (proj2 (free_balance_fatal (env := Run.env 5) _)).
  split.
  - left. reflexivity.
  - right. eexists. split; [reflexivity | left; reflexivity].
Defined.

(** * The funds over binary64

    The claims on the cap, the minimum and the funds pool (C2, C5, C3)
    depend on what the doubles do; they are settled on the embedding of
    [Binary64]. *)

Module Binary64Properties.

Import Binary64.

(** ** Comparisons of doubles *)

Lemma SFcompare_antisym (x y : float64) (c : comparison) :
  SFcompare x y = Some c -> SFcompare y x = Some (CompOpp c).
Proof.
  destruct x as [sx|sx| |sx mx ex], y as [sy|sy| |sy my ey]; cbn;
    try discriminate;
    try (destruct sx; intros H; injection H as <-; reflexivity);
    try (destruct sy; intros H; injection H as <-; reflexivity);
    try (destruct sx, sy; intros H; injection H as <-; reflexivity).
  change (Pos.compare_cont Eq mx my) with (Pos.compare mx my).
  change (Pos.compare_cont Eq my mx) with (Pos.compare my mx).
  rewrite (Z.compare_antisym ex ey), (Pos.compare_antisym mx my).
  destruct sx, sy; intros H; injection H as <-;
    destruct (ex ?= ey)%Z, (mx ?= my)%positive; reflexivity.
Qed.

Lemma SFcompare_not_nan (x y : float64) :
  is_nan x = false -> is_nan y = false -> exists c, SFcompare x y = Some c.
Proof.
  destruct x, y; cbn; try discriminate; intros _ _; eexists; reflexivity.
Qed.

(** Of two doubles that are not nan, the one that is not below the other
    is at or above it. *)
Lemma leb_of_not_ltb (a b : float64) :
  is_nan a = false -> is_nan b = false -> ltb b a = false -> leb a b = true.
Proof.
  intros A B. unfold ltb, leb, SFltb, SFleb.
  destruct (SFcompare_not_nan b a B A) as [c H].
  rewrite H, (SFcompare_antisym _ _ _ H). destruct c; cbn; congruence.
Qed.

Lemma ltb_not_nan (a b : float64) :
  ltb a b = true -> is_nan a = false /\ is_nan b = false.
Proof. destruct a, b; cbn; try discriminate; auto. Qed.

Lemma ltb_not_leb (a b : float64) : ltb a b = true -> leb b a = false.
Proof.
  unfold ltb, leb, SFltb, SFleb. destruct (SFcompare a b) as [c|] eqn:H;
    [|discriminate].
  rewrite (SFcompare_antisym _ _ _ H). destruct c; cbn; congruence.
Qed.

(** A finite double less itself is +0. *)
Lemma sub_self (s : bool) (m : positive) (e : Z) :
  sub (S754_finite s m e) (S754_finite s m e) = S754_zero false.
Proof.
  unfold sub, SFsub. rewrite Z.min_id. unfold shl_align.
  rewrite Z.sub_diag. reflexivity.
Qed.

Section Loop.

Context {env : Env}.

Lemma b64_loop_body_rejected idx row (st : state) m :
  validate idx row = inl m ->
  loop_body idx row st = (Continue, py_print m st).
Proof. intros H. unfold loop_body. rewrite H. reflexivity. Qed.

Lemma b64_loop_body_no_funds idx row (st : state) c :
  validate idx row = inr c -> leb (remaining_funds st) (of_Z 0) = true ->
  loop_body idx row st = (Break, py_print MsgNoRemainingFunds st).
Proof. intros H F. unfold loop_body. rewrite H, F. reflexivity. Qed.

Lemma b64_loop_body_below_minimum idx row (st : state) c :
  validate idx row = inr c -> leb (remaining_funds st) (of_Z 0) = false ->
  ltb (order_notional (remaining_funds st) c) MIN_ORDER_NOTIONAL = true ->
  loop_body idx row st =
  (Continue,
   py_print (MsgBelowMinimum idx (symbol c)
               (order_notional (remaining_funds st) c)) st).
Proof. intros H F M. unfold loop_body. rewrite H, F, M. reflexivity. Qed.

Lemma b64_loop_body_submits idx row (st : state) c :
  validate idx row = inr c -> leb (remaining_funds st) (of_Z 0) = false ->
  ltb (order_notional (remaining_funds st) c) MIN_ORDER_NOTIONAL = false ->
  loop_body idx row st =
  (Continue, place_order idx c (order_notional (remaining_funds st) c) st).
Proof. intros H F M. unfold loop_body. rewrite H, F, M. reflexivity. Qed.

Lemma b64_place_order_returned idx c n (st : state) ex order_id :
  create_market_buy_order (client st) (market_symbol c) (div n (price c))
  = (ex, OrderReturned order_id) ->
  place_order idx c n st =
  {| remaining_funds := sub (remaining_funds st) n;
     orders_placed :=
       orders_placed st ++
         [ {| po_row := idx; po_symbol := symbol c;
              po_market_symbol := market_symbol c;
              po_notional := n; po_amount := div n (price c);
              po_order_id := order_id |} ];
     stdout :=
       (stdout st ++ [ order_line idx c n ]) ++
         [ MsgOrderPlaced idx (symbol c) order_id n
             (sub (remaining_funds st) n) ];
     client := ex |}.
Proof. intros H. unfold place_order. cbn. rewrite H. reflexivity. Qed.

Lemma b64_place_order_failed idx c n (st : state) ex e :
  create_market_buy_order (client st) (market_symbol c) (div n (price c))
  = (ex, BaseError e) ->
  place_order idx c n st =
  {| remaining_funds := remaining_funds st;
     orders_placed := orders_placed st;
     stdout :=
       (stdout st ++ [ order_line idx c n ]) ++
         [ MsgOrderFailed idx (symbol c) e ];
     client := ex |}.
Proof. intros H. unfold place_order. cbn. rewrite H. reflexivity. Qed.

(** What an iteration does to the funds and the orders: nothing, or one
    order that is not below the minimum, and the funds less its
    notional. *)
Lemma loop_body_funds_orders idx row (st : state) :
  (remaining_funds (snd (loop_body idx row st)) = remaining_funds st /\
   orders_placed (snd (loop_body idx row st)) = orders_placed st) \/
  (exists o,
     ltb (po_notional o) MIN_ORDER_NOTIONAL = false /\
     remaining_funds (snd (loop_body idx row st))
     = sub (remaining_funds st) (po_notional o) /\
     orders_placed (snd (loop_body idx row st)) = orders_placed st ++ [o]).
Proof.
  unfold loop_body. destruct (validate idx row) as [m|c]; [left; auto|].
  destruct (leb (remaining_funds st) (of_Z 0)); [left; auto|].
  destruct (ltb (order_notional (remaining_funds st) c) MIN_ORDER_NOTIONAL)
    eqn:M; [left; auto|].
  cbn [snd].
  destruct (create_market_buy_order (client st) (market_symbol c)
              (div (order_notional (remaining_funds st) c) (price c)))
    as [ex [order_id|e]] eqn:H.
  - right. rewrite (b64_place_order_returned _ _ _ _ _ _ H).
    cbn [remaining_funds orders_placed].
    exists {| po_row := idx; po_symbol := symbol c;
              po_market_symbol := market_symbol c;
              po_notional := order_notional (remaining_funds st) c;
              po_amount := div (order_notional (remaining_funds st) c) (price c);
              po_order_id := order_id |}.
    cbn [po_notional]. auto.
  - left. rewrite (b64_place_order_failed _ _ _ _ _ _ H). cbn. auto.
Qed.

Lemma b64_for_rows_cons idx row rest (st : state) :
  for_rows idx (row :: rest) st =
  match loop_body idx row st with
  | (Break, st') => st'
  | (Continue, st') => for_rows (S idx) rest st'
  end.
Proof. reflexivity. Qed.

Lemma less_notionals_app (funds : float64) (l l' : list placed_order) :
  less_notionals funds (l ++ l') = less_notionals (less_notionals funds l) l'.
Proof. apply fold_left_app. Qed.

Lemma for_rows_funds_orders (rows : list (list pystr)) :
  forall idx (st : state),
  exists placed,
    orders_placed (for_rows idx rows st) = orders_placed st ++ placed /\
    remaining_funds (for_rows idx rows st)
    = less_notionals (remaining_funds st) placed /\
    (forall o, In o placed -> ltb (po_notional o) MIN_ORDER_NOTIONAL = false).
Proof.
  induction rows as [|row rest IH]; intros idx st.
  - exists []. cbn. rewrite app_nil_r. repeat split. contradiction.
  - rewrite b64_for_rows_cons. pose proof (loop_body_funds_orders idx row st) as FO.
    destruct (loop_body idx row st) as [[|] st1]; cbn [snd] in FO.
    + destruct (IH (S idx) st1) as [placed [O [R M]]].
      destruct FO as [[R1 O1]|[o [M1 [R1 O1]]]].
      * exists placed. rewrite O, R, O1, R1. auto.
      * exists (o :: placed). rewrite O, R, O1, R1, <- app_assoc. cbn.
        repeat split. intros o' [<-|H]; [exact M1 | apply M, H].
    + destruct FO as [[R1 O1]|[o [M1 [R1 O1]]]].
      * exists []. rewrite O1, R1, app_nil_r. cbn. repeat split. contradiction.
      * exists [o]. rewrite O1, R1. cbn. repeat split.
        intros o' [<-|[]]. exact M1.
Qed.

Lemma b64_for_rows_no_funds (rows : list (list pystr)) :
  forall idx (st : state),
    leb (remaining_funds st) (of_Z 0) = true ->
    remaining_funds (for_rows idx rows st) = remaining_funds st /\
    orders_placed (for_rows idx rows st) = orders_placed st /\
    client (for_rows idx rows st) = client st.
Proof.
  induction rows as [|row rest IH]; intros idx st F; [cbn; auto|].
  rewrite b64_for_rows_cons.
  destruct (validate idx row) as [m|c] eqn:V.
  - rewrite (b64_loop_body_rejected _ _ _ _ V).
    destruct (IH (S idx) (py_print m st) F) as [R [O C]]. cbn in R, O, C. auto.
  - rewrite (b64_loop_body_no_funds _ _ _ _ V F). cbn. auto.
Qed.



End Loop.

(** A price that passed [price <= 0] is not a zero, so the divisions of
    the loop body never divide by zero. *)
Lemma divisor_not_zero (x : float64) (s : bool) :
  leb x (of_Z 0) = false -> x <> S754_zero s.
Proof. intros H ->. destruct s; vm_compute in H; discriminate H. Qed.

Lemma leb_refl (x : float64) : is_nan x = false -> leb x x = true.
Proof.
  intros N. apply leb_of_not_ltb; try exact N.
  unfold ltb, SFltb. destruct (SFcompare x x) as [c|] eqn:H; [|reflexivity].
  pose proof (SFcompare_antisym _ _ _ H) as H'. rewrite H in H'.
  destruct c; [reflexivity | discriminate H' | reflexivity].
Qed.

Lemma order_notional_capped (funds : float64) (c : candidate) :
  is_nan (raw_notional funds c) = false -> is_nan funds = false ->
  leb (order_notional funds c) funds = true.
Proof.
  intros R F. unfold order_notional, py_min.
  destruct (ltb funds (raw_notional funds c)) eqn:E.
  - apply leb_refl, F.
  - apply leb_of_not_ltb; assumption.
Qed.

(** ** C2: the cap *)

(** C2: [min(order_notional, remaining_funds)] caps the notional at the
    funds whenever neither of the two is nan; on the row whose price cell
    reads nan, with 1000 left and a minimum of 5, the row passes
    [price <= 0], its notional is nan, which is not at most 1000, and the
    order is sent and recorded with that notional, leaving nan as the
    funds. *)
Theorem cap_fails_on_nan :
  (forall funds (c : candidate),
     is_nan (raw_notional funds c) = false -> is_nan funds = false ->
     leb (order_notional funds c) funds = true) /\
  validate (env := run_env (of_Z 5)) 2 nan_row = inr nan_candidate /\
  order_notional (of_Z 1000) nan_candidate = S754_nan /\
  leb (order_notional (of_Z 1000) nan_candidate) (of_Z 1000) = false /\
  (let st := start (of_Z 5) (of_Z 1000) [OrderReturned (Some Run.OID1)] in
   exists o,
     orders_placed (snd (loop_body 2 nan_row st)) = [o] /\
     po_notional o = S754_nan /\
     remaining_funds (snd (loop_body 2 nan_row st)) = S754_nan).
Proof.
  split; [exact order_notional_capped|].
  split; [vm_compute; reflexivity|].
  split; [vm_compute; reflexivity|].
  split; [vm_compute; reflexivity|].
  cbv zeta.
  exists {| po_row := 2; po_symbol := lit "ETH";
            po_market_symbol := lit "ETH/USD";
            po_notional := S754_nan; po_amount := S754_nan;
            po_order_id := Some Run.OID1 |}.
  split; [vm_compute; reflexivity|].
  split; [reflexivity | vm_compute; reflexivity].
Qed.

Lemma cap_fails_on_nan_witness :
  leb (order_notional (of_Z 100) sol_candidate) (of_Z 100) = true.
Proof.
  apply (proj1 cap_fails_on_nan); vm_compute; reflexivity.
Defined.

(** ** C5: the minimum notional *)

(** C5: a row whose capped notional is strictly below the minimum ends
    its iteration with the line that says so and nothing else changed,
    and no order the loop records has a notional strictly below the
    minimum; but the notional of a recorded order can be nan, which is
    not at least the minimum: the row whose price cell reads nan is
    recorded with notional nan under a minimum of 5. *)
Theorem minimum_fails_on_nan :
  (forall (env : Env) idx row (st : state) c,
     validate idx row = inr c -> leb (remaining_funds st) (of_Z 0) = false ->
     ltb (order_notional (remaining_funds st) c) MIN_ORDER_NOTIONAL = true ->
     loop_body idx row st =
     (Continue,
      py_print (MsgBelowMinimum idx (symbol c)
                  (order_notional (remaining_funds st) c)) st)) /\
  (forall (env : Env) idx rows (st : state) o,
     In o (orders_placed (for_rows idx rows st)) ->
     In o (orders_placed st) \/
     (ltb (po_notional o) MIN_ORDER_NOTIONAL = false /\
      (is_nan (po_notional o) = false -> is_nan MIN_ORDER_NOTIONAL = false ->
       leb MIN_ORDER_NOTIONAL (po_notional o) = true))) /\
  (let st :=
     main (env := run_env (of_Z 5)) [Run.header; nan_row] (of_Z 1000)
       [OrderReturned (Some Run.OID1)] in
   exists o,
     orders_placed st = [o] /\ po_notional o = S754_nan /\
     leb (of_Z 5) (po_notional o) = false).
Proof.
  split; [|split].
  - intros env idx row st c V F M. apply (b64_loop_body_below_minimum _ _ _ _ V F M).
  - intros env idx rows st o H.
    destruct (for_rows_funds_orders rows idx st) as [placed [O [_ M]]].
    rewrite O in H. apply in_app_or in H. destruct H as [H|H]; [left; exact H|].
    right. split; [apply M, H|].
    intros N1 N2. apply leb_of_not_ltb; try assumption. apply M, H.
  - cbv zeta.
    exists {| po_row := 2; po_symbol := lit "ETH";
              po_market_symbol := lit "ETH/USD";
              po_notional := S754_nan; po_amount := S754_nan;
              po_order_id := Some Run.OID1 |}.
    split; [vm_compute; reflexivity|].
    split; [reflexivity | vm_compute; reflexivity].
Qed.

Lemma minimum_fails_on_nan_witness :
  let st := start (of_Z 5) (of_Z 50) [] in
  loop_body 2 Run.eth_row st
  = (Continue,
     py_print (MsgBelowMinimum 2 (symbol eth_candidate)
                 (order_notional (of_Z 50) eth_candidate)) st).
Proof.
  intros st.
  apply (proj1 minimum_fails_on_nan (run_env (of_Z 5)) 2%nat Run.eth_row st
           eth_candidate).
  - vm_compute. reflexivity.
  - vm_compute. reflexivity.
  - vm_compute. reflexivity.
Defined.

(** ** C3: the funds pool *)



(** ** What validation lets through *)





(** ** The order that takes all *)

(** X14: when the funds are positive, the notional before the cap is
    strictly above them and they are not below the minimum, the order is
    sized the funds; when the exchange returns it, the recorded notional
    is the funds, exactly +0 is left, and no later row of the scan adds an
    order or changes the funds. *)
Theorem whole_pool_order (env : Env) (idx : nat) (row : list pystr)
    (rest : list (list pystr)) (st : state) (c : candidate) ex order_id :
  validate idx row = inr c ->
  ltb (of_Z 0) (remaining_funds st) = true ->
  ltb (remaining_funds st) (raw_notional (remaining_funds st) c) = true ->
  ltb (remaining_funds st) MIN_ORDER_NOTIONAL = false ->
  create_market_buy_order (client st) (market_symbol c)
    (div (remaining_funds st) (price c))
  = (ex, OrderReturned order_id) ->
  let st1 := snd (loop_body idx row st) in
  order_notional (remaining_funds st) c = remaining_funds st /\
  remaining_funds st1 = S754_zero false /\
  (exists o, orders_placed st1 = orders_placed st ++ [o] /\
             po_notional o = remaining_funds st) /\
  orders_placed (for_rows idx (row :: rest) st) = orders_placed st1 /\
  remaining_funds (for_rows idx (row :: rest) st) = remaining_funds st1.
Proof.
  intros V F K M H st1.
  assert (N : order_notional (remaining_funds st) c = remaining_funds st)
    by (unfold order_notional, py_min; rewrite K; reflexivity).
  assert (F' : leb (remaining_funds st) (of_Z 0) = false)
    by (apply ltb_not_leb, F).
  assert (L : loop_body idx row st
              = (Continue, place_order idx c (remaining_funds st) st)).
  { rewrite (b64_loop_body_submits _ _ _ _ V F'); rewrite N; [reflexivity|exact M]. }
  assert (Z : sub (remaining_funds st) (remaining_funds st) = S754_zero false).
  { destruct (remaining_funds st) as [s|s| |s m e].
    - destruct s; vm_compute in F; discriminate F.
    - destruct s; [vm_compute in F; discriminate F|].
      destruct (raw_notional (S754_infinity false) c) as [r|[|]| |[|] mr er];
        vm_compute in K; discriminate K.
    - vm_compute in F. discriminate F.
    - apply sub_self. }
  assert (S1 : remaining_funds st1 = S754_zero false
               /\ orders_placed st1
                  = orders_placed st ++
                      [ {| po_row := idx; po_symbol := symbol c;
                           po_market_symbol := market_symbol c;
                           po_notional := remaining_funds st;
                           po_amount := div (remaining_funds st) (price c);
                           po_order_id := order_id |} ]).
  { subst st1. rewrite L. cbn [snd].
    rewrite (b64_place_order_returned _ _ _ _ _ _ H).
    cbn [remaining_funds orders_placed]. rewrite Z. auto. }
  destruct S1 as [R1 O1].
  split; [exact N|]. split; [exact R1|]. split.
  - eexists. split; [exact O1 | reflexivity].
  - rewrite b64_for_rows_cons. subst st1. rewrite L in *. cbn [snd] in *.
    destruct (b64_for_rows_no_funds rest (S idx)
                (place_order idx c (remaining_funds st) st)) as [R [O _]];
      [rewrite R1; reflexivity | split; assumption].
Qed.

Lemma whole_pool_order_witness :
  let st := start (of_Z 5) (of_Z 100) [OrderReturned (Some Run.OID1)] in
  remaining_funds (snd (loop_body 2 Run.sol_row st)) = S754_zero false /\
  orders_placed (for_rows 2 [Run.sol_row; Run.eth_row] st)
  = orders_placed (snd (loop_body 2 Run.sol_row st)).
Proof.
  intros st.
  destruct (whole_pool_order (run_env (of_Z 5)) 2 Run.sol_row [Run.eth_row] st
              sol_candidate [] (Some Run.OID1)) as [_ [R [_ [O _]]]];
    try (vm_compute; reflexivity).
  split; [exact R | exact O].
Defined.

End Binary64Properties.
